(** * GitHub issue summary: categorizer, delta engine, formatter and run loop

    A shallow embedding of [test-github-issue-summary.py].  Python dicts with
    a fixed set of keys are records, lists are lists, the sets built by set
    comprehensions are [gset Z], integers are [Z], and the side effects of
    [main] (the snapshot file, the two HTTP collaborators, exceptions) are an
    explicit world threaded through an exception monad.

    Text is modelled as [string] over 8-bit characters; [str.lower] is the
    ASCII lower-casing (bytes outside [A-Z] are left alone, so the few
    non-ASCII letters that Python lowers to an ASCII letter are out of the
    model).  Calls to [print] are left out: they change nothing a later step
    reads. *)

From Stdlib Require Import ZArith List Ascii String Bool Lia.
From Stdlib Require Import DecimalString Decimal DecimalPos.
From stdpp Require Import base decidable list gmap strings.

Import ListNotations.
Local Open Scope string_scope.
Local Open Scope list_scope.
Local Open Scope Z_scope.

(** ** Text primitives *)

Module Text.

(** [c.lower()] on one ASCII character. *)
Definition lower_ascii (c : ascii) : ascii :=
  let n := N_of_ascii c in
  if ((65 <=? n)%N && (n <=? 90)%N)%bool then ascii_of_N (n + 32) else c.

(** [s.lower()] *)
Fixpoint lower (s : string) : string :=
  match s with
  | EmptyString => EmptyString
  | String c s' => String (lower_ascii c) (lower s')
  end.

(** [s.startswith(p)] *)
Fixpoint startswith (p s : string) : bool :=
  match p, s with
  | EmptyString, _ => true
  | String _ _, EmptyString => false
  | String a p', String b s' => (Ascii.eqb a b && startswith p' s')%bool
  end.

(** [needle in s] for two strings: some suffix of [s] starts with [needle]. *)
Fixpoint contains (needle s : string) : bool :=
  (startswith needle s ||
   match s with
   | EmptyString => false
   | String _ s' => contains needle s'
   end)%bool.

(** Truth value of a string: only the empty string is falsy. *)
Definition truthy (s : string) : bool :=
  match s with EmptyString => false | String _ _ => true end.

(** [any(x for x in xs if p(x))]: the generator yields the elements that pass
    [p], and [any] tests the truth value of each yielded element. *)
Definition any_if (p : string -> bool) (xs : list string) : bool :=
  existsb truthy (List.filter p xs).

(** The declarative reading of [needle in s]. *)
Definition occurs_in (needle s : string) : Prop :=
  exists pre post, s = (pre ++ needle ++ post)%string.

End Text.

(** ** Data model *)

(** One label object of a raw issue; only ['name'] is read. *)
Record Label := { name : string }.

(** A raw issue as returned by the tracker; only these keys are read. *)
Record RawIssue := {
  raw_number : Z;
  raw_title : string;
  raw_html_url : string;
  raw_labels : list Label;
  raw_pull_request : bool  (* ['pull_request' in issue] *)
}.

(** The dict [{'number', 'title', 'url'}] stored in a bucket. *)
Record Issue := { number : Z; title : string; url : string }.

(** The four buckets. *)
Inductive Category := ReadyForTesting | InProgress | Blocked | Backlog.

#[global] Instance Category_eq_dec : EqDecision Category.
Proof. solve_decision. Defined.

(** The snapshot dict.  [timestamp] and [repoName] are absent until
    [save_snapshot] adds them. *)
Record Snapshot := {
  readyForTesting : list Issue;
  inProgress : list Issue;
  blocked : list Issue;
  backlog : list Issue;
  readyForTestingCount : Z;
  inProgressCount : Z;
  blockedCount : Z;
  backlogCount : Z;
  totalCount : Z;
  timestamp : option string;
  repoName : option string
}.

(** [len(xs)] *)
Definition len {A} (xs : list A) : Z := Z.of_nat (length xs).

(** ** Categorizer *)

(** [[label['name'].lower() for label in issue['labels']]] *)
Definition label_names (issue : RawIssue) : list string :=
  map (fun label => Text.lower (name label)) (raw_labels issue).

Definition blocked_label (label : string) : bool :=
  (Text.contains "blocked" label && negb (Text.contains "unblocked" label))%bool.

Definition ready_label (label : string) : bool :=
  (Text.contains "ready" label && Text.contains "test" label)%bool.

Definition in_progress_label (label : string) : bool :=
  (Text.contains "in-progress" label || Text.contains "in progress" label
   || Text.contains "status:in-progress" label)%bool.

Definition has_blocked (issue : RawIssue) : bool :=
  Text.any_if blocked_label (label_names issue).

Definition has_ready (issue : RawIssue) : bool :=
  Text.any_if ready_label (label_names issue).

Definition has_in_progress (issue : RawIssue) : bool :=
  Text.any_if in_progress_label (label_names issue).

(** The dict called [category] in the loop body. *)
Definition category (issue : RawIssue) : Issue :=
  {| number := raw_number issue;
     title := raw_title issue;
     url := raw_html_url issue |}.

(** The four accumulator lists of the loop. *)
Record Buckets := {
  b_ready_for_testing : list Issue;
  b_in_progress : list Issue;
  b_blocked : list Issue;
  b_backlog : list Issue
}.

Definition no_buckets : Buckets :=
  {| b_ready_for_testing := []; b_in_progress := [];
     b_blocked := []; b_backlog := [] |}.

(** One iteration of [for issue in issues]: the [if/elif/else] chain appends
    to one list. *)
Definition categorize_step (acc : Buckets) (issue : RawIssue) : Buckets :=
  let c := category issue in
  if has_blocked issue then
    {| b_ready_for_testing := b_ready_for_testing acc;
       b_in_progress := b_in_progress acc;
       b_blocked := b_blocked acc ++ [c];
       b_backlog := b_backlog acc |}
  else if has_ready issue then
    {| b_ready_for_testing := b_ready_for_testing acc ++ [c];
       b_in_progress := b_in_progress acc;
       b_blocked := b_blocked acc;
       b_backlog := b_backlog acc |}
  else if has_in_progress issue then
    {| b_ready_for_testing := b_ready_for_testing acc;
       b_in_progress := b_in_progress acc ++ [c];
       b_blocked := b_blocked acc;
       b_backlog := b_backlog acc |}
  else
    {| b_ready_for_testing := b_ready_for_testing acc;
       b_in_progress := b_in_progress acc;
       b_blocked := b_blocked acc;
       b_backlog := b_backlog acc ++ [c] |}.

Definition categorize_loop (issues : list RawIssue) : Buckets :=
  fold_left categorize_step issues no_buckets.

Definition categorize_issues (issues : list RawIssue) : Snapshot :=
  let acc := categorize_loop issues in
  {| readyForTesting := b_ready_for_testing acc;
     inProgress := b_in_progress acc;
     blocked := b_blocked acc;
     backlog := b_backlog acc;
     readyForTestingCount := len (b_ready_for_testing acc);
     inProgressCount := len (b_in_progress acc);
     blockedCount := len (b_blocked acc);
     backlogCount := len (b_backlog acc);
     totalCount := len issues;
     timestamp := None;
     repoName := None |}.

(** ** Delta engine *)

(** The per-category dicts of the delta: ReadyForTesting has four keys,
    InProgress and Blocked three, Backlog two. *)
Record ReadyDelta := {
  rd_count : Z; rd_delta : Z; rd_new : list Issue; rd_moved : list Issue
}.
Record ItemDelta := { it_count : Z; it_delta : Z; it_new : list Issue }.
Record CountDelta := { cd_count : Z; cd_delta : Z }.

Record Delta := {
  d_readyForTesting : ReadyDelta;
  d_inProgress : ItemDelta;
  d_blocked : ItemDelta;
  d_backlog : CountDelta
}.

(** [{i['number'] for i in xs}] *)
Definition ids (xs : list Issue) : gset Z := list_to_set (map number xs).

(** [n in s] and [n not in s] on a set of numbers. *)
Definition mem (n : Z) (s : gset Z) : bool := bool_decide (n ∈ s).

(** [calculate_delta(current, previous)].  A snapshot dict always has keys, so
    [not previous] holds exactly when [previous] is [None]. *)
Definition calculate_delta (current : Snapshot) (previous : option Snapshot) : Delta :=
  match previous with
  | None =>
      {| d_readyForTesting :=
           {| rd_count := readyForTestingCount current;
              rd_delta := readyForTestingCount current;
              rd_new := readyForTesting current;
              rd_moved := [] |};
         d_inProgress :=
           {| it_count := inProgressCount current;
              it_delta := inProgressCount current;
              it_new := inProgress current |};
         d_blocked :=
           {| it_count := blockedCount current;
              it_delta := blockedCount current;
              it_new := blocked current |};
         d_backlog :=
           {| cd_count := backlogCount current;
              cd_delta := backlogCount current |} |}
  | Some previous =>
      let prev_ready_ids := ids (readyForTesting previous) in
      let new_ready :=
        List.filter (fun i => negb (mem (number i) prev_ready_ids))
                    (readyForTesting current) in
      let prev_in_progress_ids := ids (inProgress previous) in
      let prev_blocked_ids := ids (blocked previous) in
      let prev_backlog_ids := ids (backlog previous) in
      let moved_to_ready :=
        List.filter (fun i => mem (number i) prev_in_progress_ids
                              || mem (number i) prev_blocked_ids
                              || mem (number i) prev_backlog_ids)%bool
                    (readyForTesting current) in
      let prev_all_ids :=
        ids (readyForTesting previous ++ inProgress previous ++
             blocked previous ++ backlog previous) in
      let new_in_progress :=
        List.filter (fun i => negb (mem (number i) prev_all_ids))
                    (inProgress current) in
      let new_blocked :=
        List.filter (fun i => negb (mem (number i) prev_all_ids))
                    (blocked current) in
      {| d_readyForTesting :=
           {| rd_count := readyForTestingCount current;
              rd_delta := readyForTestingCount current - readyForTestingCount previous;
              rd_new := new_ready;
              rd_moved := moved_to_ready |};
         d_inProgress :=
           {| it_count := inProgressCount current;
              it_delta := inProgressCount current - inProgressCount previous;
              it_new := new_in_progress |};
         d_blocked :=
           {| it_count := blockedCount current;
              it_delta := blockedCount current - blockedCount previous;
              it_new := new_blocked |};
         d_backlog :=
           {| cd_count := backlogCount current;
              cd_delta := backlogCount current - backlogCount previous |} |}
  end.

(** ** Message formatter *)

(** [str(n)] for an integer: decimal digits, a leading minus sign when negative. *)
Definition str (n : Z) : string := NilZero.string_of_int (Z.to_int n).

(** [format_delta(delta_num)] *)
Definition format_delta (delta_num : Z) : string :=
  if delta_num >? 0 then ("+" ++ str delta_num)%string
  else if delta_num <? 0 then str delta_num
  else "no change".

(** ['\n'] *)
Definition nl : string := String (ascii_of_nat 10) EmptyString.

(** [sep.join(lines)] *)
Definition join (sep : string) (lines : list string) : string :=
  match lines with
  | [] => ""
  | l :: ls => fold_left (fun acc x => (acc ++ sep ++ x)%string) ls l
  end.

(** One report line: ["<head> <count> issues (<format_delta(delta)>)"]. *)
Definition report_line (head : string) (count delta : Z) : string :=
  (head ++ " " ++ str count ++ " issues (" ++ format_delta delta ++ ")")%string.

(** [format_slack_message(repo, delta)]; [time_str] is the wall-clock time
    rendered in the reporting time zone, read from the clock by the source. *)
Definition format_slack_message (time_str repo : string) (delta : Delta) : string :=
  join nl
    [ ("📊 *" ++ repo ++ "* - Issue Status Report")%string;
      ("_" ++ time_str ++ "_" ++ nl)%string;
      report_line "✅ *Ready for Testing:*"
        (rd_count (d_readyForTesting delta)) (rd_delta (d_readyForTesting delta));
      report_line "🔨 *In Progress:*"
        (it_count (d_inProgress delta)) (it_delta (d_inProgress delta));
      report_line "🚧 *Blocked:*"
        (it_count (d_blocked delta)) (it_delta (d_blocked delta));
      report_line "📋 *Backlog:*"
        (cd_count (d_backlog delta)) (cd_delta (d_backlog delta)) ].

(** ** The run: [main] over an explicit world *)

Definition GITHUB_REPO_OWNER : string := "ChinchillaEnterprises".
Definition GITHUB_REPO_NAME : string := "transportation-insight".
Definition SLACK_CHANNEL_ID : string := "C07JM1KJJ6L".

Module Run.

(** What the snapshot file holds: a snapshot written by an earlier run, or
    bytes that [json.load] rejects. *)
Inductive FileContent := Stored (s : Snapshot) | Garbled.

(** The state a run can change: the snapshot file (absent when [None]) and
    the messages the chat service accepted, as (channel, text). *)
Record World := {
  snapshot_file : option FileContent;
  delivered : list (string * string)
}.

(** What [requests.post(...)] followed by [response.json()] does in
    [send_slack_message]: raise, or give back a body whose ['ok'] is [ok]. *)
Inductive SlackReply := PostRaises | PostReplies (ok : bool).

(** What the collaborators answer during one run.  [None] stands for a raised
    exception (a failed secret lookup, a transport error or a non-2xx status
    from the tracker). *)
Record Env := {
  github_token : option string;
  slack_token : option string;
  tracker_issues : option (list RawIssue);
  slack_reply : SlackReply;
  now_iso : string;   (* [datetime.now().isoformat()] *)
  now_cst : string    (* the formatted time of the report header *)
}.

Inductive Exn := SecretError | FetchError | StorageError | PostError.

(** Computations that read and write the world and may raise. *)
Definition M (A : Type) : Type := World -> (Exn + A) * World.

Definition ret {A} (a : A) : M A := fun w => (inr a, w).
Definition raise {A} (e : Exn) : M A := fun w => (inl e, w).
Definition bind {A B} (m : M A) (k : A -> M B) : M B :=
  fun w => match m w with
           | (inl e, w') => (inl e, w')
           | (inr a, w') => k a w'
           end.
Definition of_option {A} (e : Exn) (o : option A) : M A :=
  match o with Some a => ret a | None => raise e end.

Notation "x <- m ;; k" := (bind m (fun x => k))
  (at level 100, m at next level, right associativity).
Notation "m ;;; k" := (bind m (fun _ => k))
  (at level 100, right associativity).

(** [fetch_github_issues]: the reply of the tracker with pull requests
    filtered out. *)
Definition fetch_github_issues (env : Env) : M (list RawIssue) :=
  issues <- of_option FetchError (tracker_issues env) ;;
  ret (List.filter (fun issue => negb (raw_pull_request issue)) issues).

(** [load_previous_snapshot] *)
Definition load_previous_snapshot : M (option Snapshot) :=
  fun w => match snapshot_file w with
           | None => (inr None, w)
           | Some (Stored s) => (inr (Some s), w)
           | Some Garbled => (inl StorageError, w)
           end.

(** The two key assignments at the top of [save_snapshot]. *)
Definition stamp (env : Env) (snapshot : Snapshot) : Snapshot :=
  {| readyForTesting := readyForTesting snapshot;
     inProgress := inProgress snapshot;
     blocked := blocked snapshot;
     backlog := backlog snapshot;
     readyForTestingCount := readyForTestingCount snapshot;
     inProgressCount := inProgressCount snapshot;
     blockedCount := blockedCount snapshot;
     backlogCount := backlogCount snapshot;
     totalCount := totalCount snapshot;
     timestamp := Some (now_iso env);
     repoName := Some (GITHUB_REPO_OWNER ++ "/" ++ GITHUB_REPO_NAME)%string |}.

(** [save_snapshot]: the file is rewritten whole. *)
Definition save_snapshot (env : Env) (snapshot : Snapshot) : M unit :=
  fun w => (inr tt, {| snapshot_file := Some (Stored (stamp env snapshot));
                       delivered := delivered w |}).

(** [send_slack_message]: a dry run only prints; otherwise the message is
    posted, and a reply whose ['ok'] is false is printed as a failure and the
    function returns normally. *)
Definition send_slack_message (env : Env) (token channel message : string)
    (dry_run : bool) : M unit :=
  if dry_run then ret tt
  else match slack_reply env with
       | PostRaises => raise PostError
       | PostReplies true =>
           fun w => (inr tt, {| snapshot_file := snapshot_file w;
                                delivered := delivered w ++ [(channel, message)] |})
       | PostReplies false => ret tt
       end.

(** The body of the [try] block of [main]. *)
Definition main_body (env : Env) (dry_run : bool) : M unit :=
  _github_token <- of_option SecretError (github_token env) ;;
  slack_token <- of_option SecretError (slack_token env) ;;
  issues <- fetch_github_issues env ;;
  let current_snapshot := categorize_issues issues in
  previous_snapshot <- load_previous_snapshot ;;
  let delta := calculate_delta current_snapshot previous_snapshot in
  let message := format_slack_message (now_cst env) GITHUB_REPO_NAME delta in
  send_slack_message env slack_token SLACK_CHANNEL_ID message dry_run ;;;
  save_snapshot env current_snapshot.

(** [main(dry_run)]: the exit status and the world after the run. *)
Definition main (env : Env) (dry_run : bool) (w : World) : Z * World :=
  match main_body env dry_run w with
  | (inl _, w') => (1, w')
  | (inr _, w') => (0, w')
  end.

(** [m] leaves the snapshot file alone, whether it returns or raises. *)
Definition keeps_file {A} (m : M A) : Prop :=
  forall w, snapshot_file (snd (m w)) = snapshot_file w.

(** When [m] raises, the snapshot file is as it was before [m]. *)
Definition aborts_clean {A} (m : M A) : Prop :=
  forall w e w', m w = (inl e, w') -> snapshot_file w' = snapshot_file w.

End Run.

(** ** Reading a snapshot by category *)

Definition bucket (c : Category) (s : Snapshot) : list Issue :=
  match c with
  | ReadyForTesting => readyForTesting s
  | InProgress => inProgress s
  | Blocked => blocked s
  | Backlog => backlog s
  end.

Definition count (c : Category) (s : Snapshot) : Z :=
  match c with
  | ReadyForTesting => readyForTestingCount s
  | InProgress => inProgressCount s
  | Blocked => blockedCount s
  | Backlog => backlogCount s
  end.

Definition acc_bucket (c : Category) (acc : Buckets) : list Issue :=
  match c with
  | ReadyForTesting => b_ready_for_testing acc
  | InProgress => b_in_progress acc
  | Blocked => b_blocked acc
  | Backlog => b_backlog acc
  end.

(** ** The categorizer as the specification words it *)

Module Spec.

(** Rule 1: some label contains "blocked" and does not contain "unblocked". *)
Definition is_blocked (issue : RawIssue) : Prop :=
  exists label, In label (label_names issue) /\
    Text.occurs_in "blocked" label /\ ~ Text.occurs_in "unblocked" label.

(** Rule 2: some label contains "ready" and contains "test". *)
Definition is_ready (issue : RawIssue) : Prop :=
  exists label, In label (label_names issue) /\
    Text.occurs_in "ready" label /\ Text.occurs_in "test" label.

(** Rule 3: some label contains "in-progress", "in progress" or
    "status:in-progress". *)
Definition is_in_progress (issue : RawIssue) : Prop :=
  exists label, In label (label_names issue) /\
    (Text.occurs_in "in-progress" label \/ Text.occurs_in "in progress" label \/
     Text.occurs_in "status:in-progress" label).

(** An ordered list of (predicate, category) pairs, tried in sequence; the
    default is Backlog. *)
Fixpoint first_match (rules : list ((RawIssue -> bool) * Category))
    (issue : RawIssue) : Category :=
  match rules with
  | [] => Backlog
  | (p, c) :: rest => if p issue then c else first_match rest issue
  end.

Definition priority_rules : list ((RawIssue -> bool) * Category) :=
  [ (has_blocked, Blocked);
    (has_ready, ReadyForTesting);
    (has_in_progress, InProgress) ].

Definition assigned (issue : RawIssue) : Category :=
  first_match priority_rules issue.

(** The stable sub-sequence of the input that belongs to category [c]. *)
Definition members (c : Category) (issues : list RawIssue) : list Issue :=
  map category (List.filter (fun i => bool_decide (assigned i = c)) issues).

(** Every label that mentions "blocked" also mentions "unblocked". *)
Definition only_unblocked_mentions (issue : RawIssue) : Prop :=
  forall label, In label (label_names issue) ->
    Text.occurs_in "blocked" label -> Text.occurs_in "unblocked" label.

(** The number [n] occurs in bucket [c] of snapshot [s]. *)
Definition in_bucket (c : Category) (s : Snapshot) (n : Z) : bool :=
  existsb (Z.eqb n) (map number (bucket c s)).

(** The number [n] occurs in none of the four sequences of [s]. *)
Definition in_no_bucket (s : Snapshot) (n : Z) : bool :=
  forallb (fun c => negb (in_bucket c s n))
          [ReadyForTesting; InProgress; Blocked; Backlog].

(** The number [n] occurs in a bucket of [s] other than ReadyForTesting. *)
Definition in_other_bucket (s : Snapshot) (n : Z) : bool :=
  existsb (fun c => in_bucket c s n) [InProgress; Blocked; Backlog].

(** Two snapshots that agree bucket by bucket on the issue numbers and on
    the counts; titles and urls are free. *)
Definition same_numbers (s s' : Snapshot) : Prop :=
  (forall c, Forall2 (fun i j => number i = number j) (bucket c s) (bucket c s')) /\
  (forall c, count c s = count c s').

Definition same_numbers_opt (p p' : option Snapshot) : Prop :=
  match p, p' with
  | None, None => True
  | Some s, Some s' => same_numbers s s'
  | _, _ => False
  end.

(** What a delta says once titles and urls are dropped: per category the
    count, the net change and the numbers of the listed issues. *)
Definition classification (d : Delta) :
    (Z * Z * list Z * list Z) * (Z * Z * list Z) * (Z * Z * list Z) * (Z * Z) :=
  ((rd_count (d_readyForTesting d), rd_delta (d_readyForTesting d),
    map number (rd_new (d_readyForTesting d)),
    map number (rd_moved (d_readyForTesting d))),
   (it_count (d_inProgress d), it_delta (d_inProgress d),
    map number (it_new (d_inProgress d))),
   (it_count (d_blocked d), it_delta (d_blocked d),
    map number (it_new (d_blocked d))),
   (cd_count (d_backlog d), cd_delta (d_backlog d))).

(** The decimal digits of a positive number, most significant first. *)
Definition digits (p : positive) : string :=
  NilEmpty.string_of_uint (Pos.to_uint p).

(** Reading a string of decimal digits back as a number. *)
Definition read_digits (s : string) : option N :=
  option_map Pos.of_uint (NilEmpty.uint_of_string s).

End Spec.

(** ** Sample inputs *)

Module Sample.

Definition raw (n : Z) (names : list string) : RawIssue :=
  {| raw_number := n;
     raw_title := "issue";
     raw_html_url := "https://tracker.example/issue";
     raw_labels := map (fun s => {| name := s |}) names;
     raw_pull_request := false |}.

Definition unlabelled : RawIssue := raw 1 [].
Definition in_progress_high : RawIssue :=
  raw 2 ["status:in-progress"; "priority:high"].
Definition unblocked_and_blocked : RawIssue := raw 3 ["unblocked"; "blocked"].
Definition only_unblocked : RawIssue := raw 4 ["status:unblocked"].
Definition ready_and_blocked : RawIssue :=
  raw 5 ["Ready for Testing"; "Blocked"].
Definition ready : RawIssue := raw 6 ["ready-for-test"].

Definition tracker : list RawIssue :=
  [unlabelled; in_progress_high; unblocked_and_blocked; only_unblocked;
   ready_and_blocked; ready].

(** Issue #5 carried a blocked label at the previous run and a
    ready-for-testing label now; nothing else is open. *)
Definition five_blocked : RawIssue := raw 5 ["blocked"].
Definition five_ready : RawIssue := raw 5 ["ready for testing"].
Definition before : Snapshot := categorize_issues [five_blocked].
Definition now : Snapshot := categorize_issues [five_ready].
Definition five : Issue := category five_ready.

(** The same two snapshots with issue #5 renamed and moved to another url. *)
Definition five_renamed : Issue :=
  {| number := 5; title := "renamed"; url := "https://tracker.example/moved" |}.
Definition rename (s : Snapshot) : Snapshot :=
  {| readyForTesting := map (fun _ => five_renamed) (readyForTesting s);
     inProgress := map (fun _ => five_renamed) (inProgress s);
     blocked := map (fun _ => five_renamed) (blocked s);
     backlog := map (fun _ => five_renamed) (backlog s);
     readyForTestingCount := readyForTestingCount s;
     inProgressCount := inProgressCount s;
     blockedCount := blockedCount s;
     backlogCount := backlogCount s;
     totalCount := totalCount s;
     timestamp := timestamp s;
     repoName := repoName s |}.

(** A live run in which every collaborator answers, the tracker reports #5
    as ready for testing, the chat service replies with ['ok'] false, and the
    snapshot file holds the result of the previous run. *)
Definition env_rejected : Run.Env :=
  {| Run.github_token := Some "ghp";
     Run.slack_token := Some "xoxb";
     Run.tracker_issues := Some [five_ready];
     Run.slack_reply := Run.PostReplies false;
     Run.now_iso := "2025-06-02T09:00:00";
     Run.now_cst := "09:00 AM CDT" |}.

Definition env_earlier : Run.Env :=
  {| Run.github_token := Some "ghp";
     Run.slack_token := Some "xoxb";
     Run.tracker_issues := Some [five_blocked];
     Run.slack_reply := Run.PostReplies true;
     Run.now_iso := "2025-06-01T09:00:00";
     Run.now_cst := "09:00 AM CDT" |}.

Definition world_before : Run.World :=
  {| Run.snapshot_file := Some (Run.Stored (Run.stamp env_earlier before));
     Run.delivered := [] |}.

End Sample.

(** ** Notions for the properties of the whole program *)

Module More.

(** The issues of a snapshot, bucket after bucket. *)
Definition all_issues (s : Snapshot) : list Issue :=
  readyForTesting s ++ inProgress s ++ blocked s ++ backlog s.

(** The count fields hold the lengths of the sequences. *)
Definition consistent (s : Snapshot) : Prop :=
  forall c, count c s = len (bucket c s).

(** The total is the sum of the four counts. *)
Definition totals_add (s : Snapshot) : Prop :=
  totalCount s =
  readyForTestingCount s + inProgressCount s + blockedCount s + backlogCount s.

(** A snapshot taken when no issue was open. *)
Definition nothing_open (s : Snapshot) : Prop :=
  (forall c, bucket c s = []) /\ (forall c, count c s = 0).

(** [previous] holds the same sequences and counts as [s]. *)
Definition same_content (s previous : Snapshot) : Prop :=
  (forall c, bucket c previous = bucket c s) /\
  (forall c, count c previous = count c s).

(** The sum of the four net changes of a delta. *)
Definition net_total (d : Delta) : Z :=
  rd_delta (d_readyForTesting d) + it_delta (d_inProgress d) +
  it_delta (d_blocked d) + cd_delta (d_backlog d).

(** A report line for a category whose count did not change. *)
Definition unchanged_line (head : string) (count : Z) : string :=
  (head ++ " " ++ str count ++ " issues (no change)")%string.

(** The report for a tracker whose four counts did not change. *)
Definition unchanged_report (time_str repo : string) (s : Snapshot) : string :=
  join nl
    [ ("📊 *" ++ repo ++ "* - Issue Status Report")%string;
      ("_" ++ time_str ++ "_" ++ nl)%string;
      unchanged_line "✅ *Ready for Testing:*" (readyForTestingCount s);
      unchanged_line "🔨 *In Progress:*" (inProgressCount s);
      unchanged_line "🚧 *Blocked:*" (blockedCount s);
      unchanged_line "📋 *Backlog:*" (backlogCount s) ].

(** The snapshot a run computes from the answer of the tracker. *)
Definition current_of (issues : list RawIssue) : Snapshot :=
  categorize_issues (List.filter (fun i => negb (raw_pull_request i)) issues).

(** The previous snapshot a run finds in the world. *)
Definition previous_of (w : Run.World) : option Snapshot :=
  match Run.snapshot_file w with
  | Some (Run.Stored s) => Some s
  | _ => None
  end.

(** The text a run hands to the notifier. *)
Definition report_of (env : Run.Env) (issues : list RawIssue) (w : Run.World) : string :=
  format_slack_message (Run.now_cst env) GITHUB_REPO_NAME
    (calculate_delta (current_of issues) (previous_of w)).

(** A run that raises leaves the whole world as it found it. *)
Definition raises_unchanged {A} (m : Run.M A) : Prop :=
  forall w e w', m w = (inl e, w') -> w' = w.

(** A step that never changes the world. *)
Definition reads_only {A} (m : Run.M A) : Prop :=
  forall w, snd (m w) = w.

(** A step that never raises. *)
Definition never_raises {A} (m : Run.M A) : Prop :=
  forall w e w', m w <> (inl e, w').

(** One scheduled invocation after the other, each with its own answers of
    the collaborators and its own mode; the exit statuses in order. *)
Fixpoint run_all (plan : list (Run.Env * bool)) (w : Run.World) : list Z * Run.World :=
  match plan with
  | [] => ([], w)
  | (env, dry_run) :: rest =>
      let (status, w') := Run.main env dry_run w in
      let (statuses, w'') := run_all rest w' in
      (status :: statuses, w'')
  end.

(** Whatever snapshot the file holds has counts that are the lengths of its
    sequences and a total that is their sum. *)
Definition stored_ok (w : Run.World) : Prop :=
  match Run.snapshot_file w with
  | Some (Run.Stored s) => consistent s /\ totals_add s
  | _ => True
  end.

(** The script body under [if __name__ == "__main__"]: the run is live only
    when ["--send"] is one of the elements of [sys.argv]. *)
Definition script (argv : list string) (env : Run.Env) (w : Run.World) :
    Z * Run.World :=
  let send_to_slack := existsb (String.eqb "--send") argv in
  let dry_run := negb send_to_slack in
  Run.main env dry_run w.

(** Sample inputs for the properties below. *)
Definition shouting : RawIssue := Sample.raw 7 ["READY"; "Blocked"; "blocked"].
Definition pull_request : RawIssue :=
  {| raw_number := 8; raw_title := "a change";
     raw_html_url := "https://tracker.example/pull/8";
     raw_labels := [{| name := "blocked" |}];
     raw_pull_request := true |}.

Definition env_live : Run.Env :=
  {| Run.github_token := Some "ghp";
     Run.slack_token := Some "xoxb";
     Run.tracker_issues := Some (pull_request :: Sample.tracker);
     Run.slack_reply := Run.PostReplies true;
     Run.now_iso := "2025-06-03T09:00:00";
     Run.now_cst := "09:00 AM CDT" |}.


Definition world_garbled : Run.World :=
  {| Run.snapshot_file := Some Run.Garbled; Run.delivered := [] |}.

Definition world_fresh : Run.World :=
  {| Run.snapshot_file := None; Run.delivered := [] |}.

End More.

(** ** Facts about the text primitives *)

Section TextFacts.

Lemma startswith_app (p post : string) :
  Text.startswith p (p ++ post)%string = true.
Proof.
  induction p as [|a p IH]; simpl; [reflexivity|].
  rewrite Ascii.eqb_refl. exact IH.
Qed.

Lemma startswith_inv (p s : string) :
  Text.startswith p s = true -> exists post, s = (p ++ post)%string.
Proof.
  revert s. induction p as [|a p IH]; intros s H; simpl in *.
  - exists s. reflexivity.
  - destruct s as [|b s]; [discriminate|].
    apply andb_true_iff in H as [Hab Hps].
    apply Ascii.eqb_eq in Hab. subst b.
    destruct (IH _ Hps) as [post ->]. exists post. reflexivity.
Qed.

Lemma contains_occurs (needle s : string) :
  Text.contains needle s = true <-> Text.occurs_in needle s.
Proof.
  unfold Text.occurs_in. induction s as [|c s IH].
  - simpl. rewrite orb_false_r. split.
    + intros H. destruct (startswith_inv _ _ H) as [post E].
      exists EmptyString, post. exact E.
    + intros (pre & post & E). destruct pre; [|discriminate].
      destruct needle; [reflexivity | discriminate].
  - split.
    + intros H. cbn [Text.contains] in H. apply orb_true_iff in H as [H|H].
      * destruct (startswith_inv _ _ H) as [post E].
        exists EmptyString, post. exact E.
      * apply IH in H as (pre & post & ->).
        exists (String c pre), post. reflexivity.
    + intros (pre & post & E). cbn [Text.contains]. apply orb_true_iff.
      destruct pre as [|a pre].
      * left. change (String c s = (needle ++ post)%string) in E.
        rewrite E. apply startswith_app.
      * right. apply IH.
        change (String c s = String a (pre ++ needle ++ post)%string) in E.
        injection E as _ E. exists pre, post. exact E.
Qed.

Lemma contains_false_occurs (needle s : string) :
  Text.contains needle s = false <-> ~ Text.occurs_in needle s.
Proof.
  rewrite <- contains_occurs. destruct (Text.contains needle s); split;
    congruence.
Qed.

Lemma any_if_true (p : string -> bool) (xs : list string) :
  Text.any_if p xs = true <->
  exists x, In x xs /\ p x = true /\ Text.truthy x = true.
Proof.
  unfold Text.any_if. rewrite existsb_exists. split.
  - intros (x & Hin & Ht). apply filter_In in Hin as [Hin Hp]. eauto.
  - intros (x & Hin & Hp & Ht). exists x. rewrite filter_In. auto.
Qed.

(** A label that passes one of the three tests contains a non-empty word, so
    its truth value never hides a match. *)
Lemma any_if_exists (p : string -> bool) (xs : list string) :
  p EmptyString = false ->
  (Text.any_if p xs = true <-> exists x, In x xs /\ p x = true).
Proof.
  intros Hp. rewrite any_if_true. split.
  - intros (x & ? & ? & ?). eauto.
  - intros (x & Hin & Hx). exists x. repeat split; auto.
    destruct x; [congruence | reflexivity].
Qed.

End TextFacts.

(** ** Facts about the categorizer *)

Section CategorizerFacts.

Lemma has_blocked_spec (issue : RawIssue) :
  has_blocked issue = true <-> Spec.is_blocked issue.
Proof.
  unfold has_blocked, Spec.is_blocked.
  rewrite any_if_exists by reflexivity.
  split; intros (l & Hin & H); exists l; split; auto.
  - unfold blocked_label in H. apply andb_true_iff in H as [Hb Hu].
    apply negb_true_iff in Hu.
    split; [apply contains_occurs | apply contains_false_occurs]; assumption.
  - destruct H as [Hb Hu]. unfold blocked_label.
    apply contains_occurs in Hb. apply contains_false_occurs in Hu.
    rewrite Hb, Hu. reflexivity.
Qed.

Lemma has_ready_spec (issue : RawIssue) :
  has_ready issue = true <-> Spec.is_ready issue.
Proof.
  unfold has_ready, Spec.is_ready.
  rewrite any_if_exists by reflexivity.
  split; intros (l & Hin & H); exists l; split; auto.
  - unfold ready_label in H. apply andb_true_iff in H as [Hr Ht].
    split; apply contains_occurs; assumption.
  - destruct H as [Hr Ht]. unfold ready_label.
    apply contains_occurs in Hr, Ht. rewrite Hr, Ht. reflexivity.
Qed.

Lemma has_in_progress_spec (issue : RawIssue) :
  has_in_progress issue = true <-> Spec.is_in_progress issue.
Proof.
  unfold has_in_progress, Spec.is_in_progress.
  rewrite any_if_exists by reflexivity.
  split; intros (l & Hin & H); exists l; split; auto.
  - unfold in_progress_label in H. rewrite !orb_true_iff in H.
    rewrite !contains_occurs in H. tauto.
  - unfold in_progress_label. rewrite !orb_true_iff.
    rewrite !contains_occurs. tauto.
Qed.

(** The [if/elif/else] chain picks the first matching rule. *)
Lemma categorize_step_bucket (acc : Buckets) (issue : RawIssue) (c : Category) :
  acc_bucket c (categorize_step acc issue) =
  acc_bucket c acc ++
    (if bool_decide (Spec.assigned issue = c) then [category issue] else []).
Proof.
  unfold categorize_step, Spec.assigned, Spec.priority_rules, Spec.first_match.
  destruct (has_blocked issue), (has_ready issue), (has_in_progress issue), c;
    cbn [acc_bucket b_ready_for_testing b_in_progress b_blocked b_backlog];
    case_bool_decide; try congruence; rewrite ?app_nil_r; reflexivity.
Qed.

Lemma categorize_fold_bucket (issues : list RawIssue) (acc : Buckets) (c : Category) :
  acc_bucket c (fold_left categorize_step issues acc) =
  acc_bucket c acc ++ Spec.members c issues.
Proof.
  revert acc. induction issues as [|i issues IH]; intros acc.
  - simpl. rewrite app_nil_r. reflexivity.
  - cbn [fold_left]. rewrite IH, categorize_step_bucket, <- app_assoc.
    f_equal. unfold Spec.members. cbn [List.filter].
    destruct (bool_decide (Spec.assigned i = c)); reflexivity.
Qed.

Lemma bucket_categorize (issues : list RawIssue) (c : Category) :
  bucket c (categorize_issues issues) = Spec.members c issues.
Proof.
  transitivity (acc_bucket c (categorize_loop issues)).
  - destruct c; reflexivity.
  - unfold categorize_loop. rewrite categorize_fold_bucket.
    destruct c; reflexivity.
Qed.

Lemma count_categorize (issues : list RawIssue) (c : Category) :
  count c (categorize_issues issues) = len (bucket c (categorize_issues issues)).
Proof. destruct c; reflexivity. Qed.

Lemma members_app (c : Category) (xs ys : list RawIssue) :
  Spec.members c (xs ++ ys) = Spec.members c xs ++ Spec.members c ys.
Proof. unfold Spec.members. rewrite List.filter_app, map_app. reflexivity. Qed.

Lemma members_lengths (issues : list RawIssue) :
  length issues =
  (length (Spec.members ReadyForTesting issues) +
   length (Spec.members InProgress issues) +
   length (Spec.members Blocked issues) +
   length (Spec.members Backlog issues))%nat.
Proof.
  unfold Spec.members. induction issues as [|i issues IH]; [reflexivity|].
  cbn [List.filter length].
  destruct (Spec.assigned i); repeat case_bool_decide; try congruence;
    cbn [map length]; lia.
Qed.

Lemma in_members (c : Category) (issues : list RawIssue) (n : Z) :
  In n (map number (Spec.members c issues)) <->
  exists i, In i issues /\ Spec.assigned i = c /\ raw_number i = n.
Proof.
  unfold Spec.members. rewrite map_map, in_map_iff. split.
  - intros (i & Hn & Hin). apply filter_In in Hin as [Hin Hc].
    apply bool_decide_eq_true in Hc. exists i. auto.
  - intros (i & Hin & Hc & Hn). exists i. split; [exact Hn|].
    apply filter_In. split; [exact Hin|]. apply bool_decide_eq_true. exact Hc.
Qed.

Lemma NoDup_map_eq {A B} (f : A -> B) (l : list A) (x y : A) :
  NoDup (map f l) -> In x l -> In y l -> f x = f y -> x = y.
Proof.
  induction l as [|a l IH]; intros Hnd Hx Hy E; [contradiction|].
  cbn [map] in Hnd. apply NoDup_cons in Hnd as [Hnotin Hnd].
  rewrite list_elem_of_In in Hnotin.
  destruct Hx as [->|Hx], Hy as [->|Hy]; auto.
  - exfalso. apply Hnotin. rewrite E. apply in_map. exact Hy.
  - exfalso. apply Hnotin. rewrite <- E. apply in_map. exact Hx.
Qed.

Lemma elem_of_ids (n : Z) (xs : list Issue) :
  n ∈ ids xs <-> In n (map number xs).
Proof. unfold ids. rewrite elem_of_list_to_set. apply list_elem_of_In. Qed.

Lemma mem_ids (n : Z) (xs : list Issue) :
  mem n (ids xs) = true <-> In n (map number xs).
Proof. unfold mem. rewrite bool_decide_eq_true. apply elem_of_ids. Qed.

End CategorizerFacts.

(** ** The categorizer: first match, partition, counts *)

(** C1.  For every input list the four buckets of the snapshot are the stable
    sub-sequences of the input selected by the first matching rule in the
    order Blocked, ReadyForTesting, InProgress, with Backlog as the default;
    every loop iteration appends the issue to exactly that one bucket; the
    three tests of the code are the three label rules; an issue without
    labels goes to Backlog and one labelled "status:in-progress",
    "priority:high" goes to InProgress. *)
Theorem categorize_first_match (issues : list RawIssue) :
  (forall c, bucket c (categorize_issues issues) = Spec.members c issues) /\
  (forall acc issue c,
     acc_bucket c (categorize_step acc issue) =
     acc_bucket c acc ++
       (if bool_decide (Spec.assigned issue = c) then [category issue] else [])) /\
  (forall issue,
     (has_blocked issue = true <-> Spec.is_blocked issue) /\
     (has_ready issue = true <-> Spec.is_ready issue) /\
     (has_in_progress issue = true <-> Spec.is_in_progress issue)) /\
  (forall acc issue, raw_labels issue = [] ->
     Spec.assigned issue = Backlog /\
     b_backlog (categorize_step acc issue) = b_backlog acc ++ [category issue]) /\
  (forall acc issue,
     map name (raw_labels issue) = ["status:in-progress"; "priority:high"] ->
     Spec.assigned issue = InProgress /\
     b_in_progress (categorize_step acc issue) =
       b_in_progress acc ++ [category issue]).
Proof.
  split; [intros c; apply bucket_categorize|].
  split; [intros acc issue c; apply categorize_step_bucket|].
  split.
  { intros issue. split; [apply has_blocked_spec|].
    split; [apply has_ready_spec | apply has_in_progress_spec]. }
  split.
  - intros acc issue Hl.
    assert (Ha : Spec.assigned issue = Backlog).
    { unfold Spec.assigned, Spec.priority_rules, Spec.first_match,
        has_blocked, has_ready, has_in_progress, label_names.
      rewrite Hl. reflexivity. }
    split; [exact Ha|].
    change (b_backlog ?a) with (acc_bucket Backlog a).
    rewrite categorize_step_bucket, Ha. reflexivity.
  - intros acc issue Hl.
    assert (Ha : Spec.assigned issue = InProgress).
    { unfold Spec.assigned, Spec.priority_rules, Spec.first_match,
        has_blocked, has_ready, has_in_progress, label_names.
      rewrite <- (map_map name Text.lower), Hl. reflexivity. }
    split; [exact Ha|].
    change (b_in_progress ?a) with (acc_bucket InProgress a).
    rewrite categorize_step_bucket, Ha. reflexivity.
Qed.

Lemma categorize_first_match_witness :
  (raw_labels Sample.unlabelled = [] /\
   b_backlog (categorize_step no_buckets Sample.unlabelled) =
     [category Sample.unlabelled]) /\
  (map name (raw_labels Sample.in_progress_high) =
     ["status:in-progress"; "priority:high"] /\
   b_in_progress (categorize_step no_buckets Sample.in_progress_high) =
     [category Sample.in_progress_high]).
Proof.
  destruct (categorize_first_match Sample.tracker) as (_ & _ & _ & H0 & H1).
  split; (split; [reflexivity|]).
  - apply (H0 no_buckets Sample.unlabelled). reflexivity.
  - apply (H1 no_buckets Sample.in_progress_high). reflexivity.
Defined.

(** C2.  When the input issue numbers are pairwise distinct, the four bucket
    sequences of the snapshot are pairwise disjoint as sets of numbers, their
    union is the set of input numbers, and every count field is the length of
    its sequence. *)
Theorem categorize_partition (issues : list RawIssue) :
  NoDup (map raw_number issues) ->
  let s := categorize_issues issues in
  (forall c1 c2, c1 <> c2 -> ids (bucket c1 s) ## ids (bucket c2 s)) /\
  ids (readyForTesting s) ∪ ids (inProgress s) ∪ ids (blocked s) ∪
    ids (backlog s) = list_to_set (map raw_number issues) /\
  (forall c, count c s = len (bucket c s)).
Proof.
  intros Hnd s. subst s. split; [|split].
  - intros c1 c2 Hne. apply elem_of_disjoint. intros n H1 H2.
    rewrite elem_of_ids, bucket_categorize, in_members in H1, H2.
    destruct H1 as (i & Hi & Hc1 & Hn1), H2 as (j & Hj & Hc2 & Hn2).
    assert (i = j) by (eapply NoDup_map_eq; eauto; congruence).
    congruence.
  - apply set_eq. intros n.
    change (readyForTesting ?x) with (bucket ReadyForTesting x).
    change (inProgress ?x) with (bucket InProgress x).
    change (blocked ?x) with (bucket Blocked x).
    change (backlog ?x) with (bucket Backlog x).
    rewrite !elem_of_union, !elem_of_ids, !bucket_categorize, !in_members.
    rewrite elem_of_list_to_set, list_elem_of_In, in_map_iff.
    split.
    + intros [[[H|H]|H]|H]; destruct H as (i & Hi & _ & Hn); eauto.
    + intros (i & Hn & Hi).
      destruct (Spec.assigned i) eqn:Hc; [left; left; left|left; left; right|left; right|right];
        exists i; auto.
  - apply count_categorize.
Qed.

Lemma categorize_partition_witness :
  NoDup (map raw_number Sample.tracker) /\
  let s := categorize_issues Sample.tracker in
  (forall c1 c2, c1 <> c2 -> ids (bucket c1 s) ## ids (bucket c2 s)) /\
  ids (readyForTesting s) ∪ ids (inProgress s) ∪ ids (blocked s) ∪
    ids (backlog s) = list_to_set (map raw_number Sample.tracker) /\
  (forall c, count c s = len (bucket c s)).
Proof.
  assert (H : NoDup (map raw_number Sample.tracker)).
  { apply (bool_decide_unpack (NoDup (map raw_number Sample.tracker))).
    vm_compute. exact I. }
  split; [exact H | exact (categorize_partition Sample.tracker H)].
Defined.

(** C10.  The snapshot carries a [totalCount] that is the number of input
    issues, and hence the sum of the four category counts. *)
Theorem categorize_total_count (issues : list RawIssue) :
  let s := categorize_issues issues in
  totalCount s = len issues /\
  totalCount s =
    readyForTestingCount s + inProgressCount s + blockedCount s + backlogCount s.
Proof.
  cbn zeta. split; [reflexivity|].
  change (totalCount (categorize_issues issues)) with (len issues).
  change (readyForTestingCount ?x) with (count ReadyForTesting x).
  change (inProgressCount ?x) with (count InProgress x).
  change (blockedCount ?x) with (count Blocked x).
  change (backlogCount ?x) with (count Backlog x).
  rewrite !count_categorize, !bucket_categorize. unfold len.
  rewrite (members_lengths issues) at 1. lia.
Qed.

(** C5 as stated fails: an issue with the two labels "unblocked" and "blocked"
    has a label containing "unblocked" and is placed into Blocked, because the
    test looks at one label at a time. *)
Lemma unblocked_label_still_blocked :
  (exists label, In label (label_names Sample.unblocked_and_blocked) /\
     Text.occurs_in "unblocked" label) /\
  blocked (categorize_issues [Sample.unblocked_and_blocked]) =
    [category Sample.unblocked_and_blocked].
Proof.
  split; [|reflexivity].
  exists "unblocked". split; [left; reflexivity|].
  exists EmptyString, EmptyString. reflexivity.
Qed.

(** C5, amended.  An issue in which every label containing "blocked" also
    contains "unblocked" is never placed into Blocked: the loop iteration for
    it leaves the Blocked list as it was, and the Blocked bucket of the
    snapshot is the same with or without that issue in the input. *)
Theorem unblocked_only_never_blocked (issue : RawIssue) :
  Spec.only_unblocked_mentions issue ->
  has_blocked issue = false /\
  (forall acc, b_blocked (categorize_step acc issue) = b_blocked acc) /\
  (forall before after,
     blocked (categorize_issues (before ++ issue :: after)) =
     blocked (categorize_issues (before ++ after))).
Proof.
  intros Honly.
  assert (Hb : has_blocked issue = false).
  { apply not_true_is_false. rewrite has_blocked_spec.
    intros (l & Hin & Hbl & Hun). apply Hun. apply Honly; assumption. }
  assert (Ha : Spec.assigned issue <> Blocked).
  { unfold Spec.assigned, Spec.priority_rules, Spec.first_match. rewrite Hb.
    destruct (has_ready issue), (has_in_progress issue); discriminate. }
  split; [exact Hb|]. split.
  - intros acc. change (b_blocked ?a) with (acc_bucket Blocked a).
    rewrite categorize_step_bucket. case_bool_decide; [contradiction|].
    apply app_nil_r.
  - intros pre post. change (blocked ?x) with (bucket Blocked x).
    rewrite !bucket_categorize, !members_app. f_equal.
    unfold Spec.members. cbn [List.filter].
    case_bool_decide; [contradiction | reflexivity].
Qed.

Lemma unblocked_only_never_blocked_witness :
  has_blocked Sample.only_unblocked = false /\
  blocked (categorize_issues ([Sample.ready_and_blocked] ++
                              Sample.only_unblocked :: [Sample.ready])) =
  blocked (categorize_issues ([Sample.ready_and_blocked] ++ [Sample.ready])).
Proof.
  assert (H : Spec.only_unblocked_mentions Sample.only_unblocked).
  { intros label [<-|[]] _.
    exists "status:", EmptyString. reflexivity. }
  destruct (unblocked_only_never_blocked Sample.only_unblocked H) as (H1 & _ & H3).
  split; [exact H1 | apply H3].
Defined.

(** ** Facts about the delta engine *)

Section DeltaFacts.

Lemma mem_existsb (n : Z) (xs : list Issue) :
  mem n (ids xs) = existsb (Z.eqb n) (map number xs).
Proof.
  apply eq_true_iff_eq. rewrite mem_ids, existsb_exists. split.
  - intros H. exists n. split; [exact H | apply Z.eqb_refl].
  - intros (m & Hin & E). apply Z.eqb_eq in E. subst m. exact Hin.
Qed.

Lemma mem_ids_app (n : Z) (xs ys : list Issue) :
  mem n (ids (xs ++ ys)) = (mem n (ids xs) || mem n (ids ys))%bool.
Proof. rewrite !mem_existsb, map_app, existsb_app. reflexivity. Qed.

Lemma mem_all_buckets (previous : Snapshot) (n : Z) :
  negb (mem n (ids (readyForTesting previous ++ inProgress previous ++
                    blocked previous ++ backlog previous))) =
  Spec.in_no_bucket previous n.
Proof.
  rewrite !mem_ids_app, !negb_orb, !mem_existsb.
  unfold Spec.in_no_bucket, Spec.in_bucket. cbn [forallb bucket].
  rewrite andb_true_r. reflexivity.
Qed.

Lemma mem_other_buckets (previous : Snapshot) (n : Z) :
  (mem n (ids (inProgress previous)) || mem n (ids (blocked previous))
   || mem n (ids (backlog previous)))%bool =
  Spec.in_other_bucket previous n.
Proof.
  rewrite !mem_existsb. unfold Spec.in_other_bucket, Spec.in_bucket.
  cbn [existsb bucket]. rewrite orb_false_r, orb_assoc. reflexivity.
Qed.

Lemma in_bucket_In (c : Category) (s : Snapshot) (n : Z) :
  Spec.in_bucket c s n = true <-> In n (map number (bucket c s)).
Proof.
  unfold Spec.in_bucket. rewrite existsb_exists. split.
  - intros (m & Hin & E). apply Z.eqb_eq in E. subst m. exact Hin.
  - intros H. exists n. split; [exact H | apply Z.eqb_refl].
Qed.

Lemma in_no_bucket_spec (s : Snapshot) (n : Z) :
  Spec.in_no_bucket s n = true <->
  forall c, ~ In n (map number (bucket c s)).
Proof.
  unfold Spec.in_no_bucket. rewrite forallb_forall. split.
  - intros H c Hin. specialize (H c).
    rewrite negb_true_iff in H. apply in_bucket_In in Hin.
    rewrite H in Hin; [discriminate|]. destruct c; simpl; auto.
  - intros H c _. apply negb_true_iff, not_true_is_false.
    rewrite in_bucket_In. apply H.
Qed.

(** Filtering twice with a test that implies the first one. *)
Lemma filter_of_filter {A} (p q : A -> bool) (l : list A) :
  (forall x, In x l -> q x = true -> p x = true) ->
  List.filter q (List.filter p l) = List.filter q l.
Proof.
  induction l as [|a l IH]; intros H; [reflexivity|].
  cbn [List.filter].
  assert (IH' : List.filter q (List.filter p l) = List.filter q l).
  { apply IH. intros x Hx. apply H. right. exact Hx. }
  destruct (q a) eqn:Hq.
  - rewrite (H a (or_introl eq_refl) Hq). cbn [List.filter].
    rewrite Hq, IH'. reflexivity.
  - destruct (p a); cbn [List.filter]; rewrite ?Hq; exact IH'.
Qed.

(** The numbers that survive a filter on numbers depend on the numbers only. *)
Lemma map_number_filter (f : Z -> bool) (l : list Issue) :
  map number (List.filter (fun i => f (number i)) l) =
  List.filter f (map number l).
Proof.
  induction l as [|a l IH]; [reflexivity|].
  cbn [List.filter map]. destruct (f (number a)); cbn [map]; rewrite IH;
    reflexivity.
Qed.

End DeltaFacts.

(** ** The delta engine *)

(** C3.  Without a previous snapshot every net change is the current count,
    the new issues of ReadyForTesting, InProgress and Blocked are the whole
    current buckets, no issue is reported as moved, and Backlog carries a
    count and a net change only. *)
Theorem calculate_delta_first_run (current : Snapshot) :
  let d := calculate_delta current None in
  (rd_count (d_readyForTesting d) = readyForTestingCount current /\
   rd_delta (d_readyForTesting d) = readyForTestingCount current /\
   rd_new (d_readyForTesting d) = readyForTesting current /\
   rd_moved (d_readyForTesting d) = []) /\
  (it_count (d_inProgress d) = inProgressCount current /\
   it_delta (d_inProgress d) = inProgressCount current /\
   it_new (d_inProgress d) = inProgress current) /\
  (it_count (d_blocked d) = blockedCount current /\
   it_delta (d_blocked d) = blockedCount current /\
   it_new (d_blocked d) = blocked current) /\
  d_backlog d =
    {| cd_count := backlogCount current; cd_delta := backlogCount current |}.
Proof. cbn. repeat split. Qed.

(** C6.  With a previous snapshot, the new issues of InProgress (and of
    Blocked) are the issues of the current bucket, in the bucket's order,
    whose number occurs in none of the four previous sequences. *)
Theorem calculate_delta_new_elsewhere (current previous : Snapshot) :
  let d := calculate_delta current (Some previous) in
  (it_new (d_inProgress d) =
     List.filter (fun i => Spec.in_no_bucket previous (number i))
                 (inProgress current) /\
   it_new (d_blocked d) =
     List.filter (fun i => Spec.in_no_bucket previous (number i))
                 (blocked current)) /\
  (forall i, In i (it_new (d_inProgress d)) <->
     In i (inProgress current) /\
     forall c, ~ In (number i) (map number (bucket c previous))) /\
  (forall i, In i (it_new (d_blocked d)) <->
     In i (blocked current) /\
     forall c, ~ In (number i) (map number (bucket c previous))).
Proof.
  cbn zeta. cbn [calculate_delta d_inProgress d_blocked it_new].
  assert (E : forall l,
    List.filter (fun i => negb (mem (number i)
      (ids (readyForTesting previous ++ inProgress previous ++
            blocked previous ++ backlog previous)))) l =
    List.filter (fun i => Spec.in_no_bucket previous (number i)) l).
  { intros l. apply List.filter_ext. intros i. apply mem_all_buckets. }
  rewrite !E. split; [split; reflexivity|].
  split; intros i; rewrite filter_In, in_no_bucket_spec; reflexivity.
Qed.

(** C4 as stated fails on its own example: with #5 in Blocked before and in
    ReadyForTesting now, #5 is reported as moved and as new, so the new list
    is not empty and the two lists are not disjoint. *)
Lemma moved_issue_is_also_new :
  let d := calculate_delta Sample.now (Some Sample.before) in
  rd_new (d_readyForTesting d) <> [] /\
  ~ (forall i, In i (rd_new (d_readyForTesting d)) ->
               ~ In i (rd_moved (d_readyForTesting d))).
Proof.
  cbn zeta.
  assert (En : rd_new (d_readyForTesting
                 (calculate_delta Sample.now (Some Sample.before))) = [Sample.five])
    by (vm_compute; reflexivity).
  assert (Em : rd_moved (d_readyForTesting
                 (calculate_delta Sample.now (Some Sample.before))) = [Sample.five])
    by (vm_compute; reflexivity).
  rewrite En, Em. split; [discriminate|].
  intros H. apply (H Sample.five); left; reflexivity.
Qed.

(** C4, amended.  On the example the delta reports #5 as moved and as new and
    a net change of -1 for Blocked.  In general the new list of
    ReadyForTesting holds the current issues absent from the previous
    ReadyForTesting and the moved list those found in another previous
    bucket; when the previous ReadyForTesting shares no number with the other
    previous buckets, the moved list is the part of the new list found in
    another previous bucket, so every moved issue is also new. *)
Theorem ready_moved_within_new :
  (let d := calculate_delta Sample.now (Some Sample.before) in
   rd_moved (d_readyForTesting d) = [Sample.five] /\
   rd_new (d_readyForTesting d) = [Sample.five] /\
   it_delta (d_blocked d) = -1) /\
  (forall current previous,
     let d := calculate_delta current (Some previous) in
     rd_new (d_readyForTesting d) =
       List.filter (fun i => negb (Spec.in_bucket ReadyForTesting previous (number i)))
                   (readyForTesting current) /\
     rd_moved (d_readyForTesting d) =
       List.filter (fun i => Spec.in_other_bucket previous (number i))
                   (readyForTesting current)) /\
  (forall current previous,
     ids (readyForTesting previous) ##
       ids (inProgress previous) ∪ ids (blocked previous) ∪ ids (backlog previous) ->
     let d := calculate_delta current (Some previous) in
     rd_moved (d_readyForTesting d) =
       List.filter (fun i => Spec.in_other_bucket previous (number i))
                   (rd_new (d_readyForTesting d)) /\
     forall i, In i (rd_moved (d_readyForTesting d)) ->
               In i (rd_new (d_readyForTesting d))).
Proof.
  assert (Hgen : forall current previous,
     let d := calculate_delta current (Some previous) in
     rd_new (d_readyForTesting d) =
       List.filter (fun i => negb (Spec.in_bucket ReadyForTesting previous (number i)))
                   (readyForTesting current) /\
     rd_moved (d_readyForTesting d) =
       List.filter (fun i => Spec.in_other_bucket previous (number i))
                   (readyForTesting current)).
  { intros current previous. cbn zeta.
    cbn [calculate_delta d_readyForTesting rd_new rd_moved]. split.
    - apply List.filter_ext. intros i. rewrite mem_existsb. reflexivity.
    - apply List.filter_ext. intros i. apply mem_other_buckets. }
  split; [|split; [exact Hgen|]].
  - cbn zeta. repeat split; vm_compute; reflexivity.
  - intros current previous Hdisj. cbn zeta.
    destruct (Hgen current previous) as [En Em]. cbn zeta in En, Em.
    rewrite En, Em.
    assert (Himp : forall i, Spec.in_other_bucket previous (number i) = true ->
      negb (Spec.in_bucket ReadyForTesting previous (number i)) = true).
    { intros i Hi. apply negb_true_iff, not_true_is_false. intros Hr.
      rewrite <- mem_other_buckets in Hi.
      unfold Spec.in_bucket in Hr. rewrite <- mem_existsb in Hr.
      cbn [bucket] in Hr. unfold mem in Hi, Hr.
      rewrite !orb_true_iff, !bool_decide_eq_true in Hi.
      rewrite bool_decide_eq_true in Hr.
      apply (proj1 (elem_of_disjoint _ _) Hdisj (number i) Hr).
      rewrite !elem_of_union. exact Hi. }
    split.
    + symmetry. apply filter_of_filter. intros i _. apply Himp.
    + intros i Hi. apply filter_In in Hi as [Hin Hother].
      apply filter_In. split; [exact Hin | apply Himp; exact Hother].
Qed.

Lemma ready_moved_within_new_witness :
  ids (readyForTesting Sample.before) ##
    ids (inProgress Sample.before) ∪ ids (blocked Sample.before) ∪
    ids (backlog Sample.before) /\
  forall i,
    In i (rd_moved (d_readyForTesting
            (calculate_delta Sample.now (Some Sample.before)))) ->
    In i (rd_new (d_readyForTesting
            (calculate_delta Sample.now (Some Sample.before)))).
Proof.
  assert (H : ids (readyForTesting Sample.before) ##
    ids (inProgress Sample.before) ∪ ids (blocked Sample.before) ∪
    ids (backlog Sample.before)).
  { apply (bool_decide_unpack _). vm_compute. exact I. }
  split; [exact H|].
  destruct ready_moved_within_new as (_ & _ & Hm).
  exact (proj2 (Hm Sample.now Sample.before H)).
Defined.

Section NumbersOnly.

Lemma Forall2_numbers (l l' : list Issue) :
  Forall2 (fun i j => number i = number j) l l' ->
  map number l = map number l'.
Proof. induction 1 as [|i j l l' E _ IH]; cbn [map]; congruence. Qed.

Lemma ids_numbers (l l' : list Issue) :
  map number l = map number l' -> ids l = ids l'.
Proof. unfold ids. congruence. Qed.

Lemma filter_numbers (f : Z -> bool) (l l' : list Issue) :
  map number l = map number l' ->
  map number (List.filter (fun i => f (number i)) l) =
  map number (List.filter (fun i => f (number i)) l').
Proof. intros E. rewrite !map_number_filter, E. reflexivity. Qed.

End NumbersOnly.

(** C7.  Two runs of the delta engine on snapshots that agree on the issue
    numbers of every bucket (and on the counts), whatever the titles and
    urls, give the same counts, the same net changes and the same issue
    numbers in every new and moved list. *)
Theorem calculate_delta_numbers_only
    (current current' : Snapshot) (previous previous' : option Snapshot) :
  Spec.same_numbers current current' ->
  Spec.same_numbers_opt previous previous' ->
  Spec.classification (calculate_delta current previous) =
  Spec.classification (calculate_delta current' previous').
Proof.
  intros [Hb Hc] Hp.
  pose proof (Forall2_numbers _ _ (Hb ReadyForTesting)) as Er.
  pose proof (Forall2_numbers _ _ (Hb InProgress)) as Ei.
  pose proof (Forall2_numbers _ _ (Hb Blocked)) as Eb.
  pose proof (Hc ReadyForTesting) as Cr. pose proof (Hc InProgress) as Ci.
  pose proof (Hc Blocked) as Cb. pose proof (Hc Backlog) as Ck.
  cbn [bucket count] in *.
  destruct previous as [p|], previous' as [p'|]; try contradiction.
  - destruct Hp as [Hpb Hpc].
    pose proof (Forall2_numbers _ _ (Hpb ReadyForTesting)) as Pr.
    pose proof (Forall2_numbers _ _ (Hpb InProgress)) as Pi.
    pose proof (Forall2_numbers _ _ (Hpb Blocked)) as Pb.
    pose proof (Forall2_numbers _ _ (Hpb Backlog)) as Pk.
    pose proof (Hpc ReadyForTesting) as Dr. pose proof (Hpc InProgress) as Di.
    pose proof (Hpc Blocked) as Db. pose proof (Hpc Backlog) as Dk.
    cbn [bucket count] in *.
    assert (Pall : ids (readyForTesting p ++ inProgress p ++ blocked p ++ backlog p) =
                   ids (readyForTesting p' ++ inProgress p' ++ blocked p' ++ backlog p')).
    { apply ids_numbers. rewrite !map_app. congruence. }
    unfold Spec.classification.
    cbn [calculate_delta d_readyForTesting d_inProgress d_blocked d_backlog
         rd_count rd_delta rd_new rd_moved it_count it_delta it_new
         cd_count cd_delta].
    rewrite <- Pall, <- (ids_numbers _ _ Pr), <- (ids_numbers _ _ Pi),
      <- (ids_numbers _ _ Pb), <- (ids_numbers _ _ Pk).
    rewrite Cr, Ci, Cb, Ck, Dr, Di, Db, Dk.
    rewrite (filter_numbers
               (fun n => negb (mem n (ids (readyForTesting p)))) _ _ Er).
    rewrite (filter_numbers
               (fun n => (mem n (ids (inProgress p)) || mem n (ids (blocked p))
                          || mem n (ids (backlog p)))%bool) _ _ Er).
    rewrite (filter_numbers
               (fun n => negb (mem n (ids (readyForTesting p ++ inProgress p ++
                                           blocked p ++ backlog p)))) _ _ Ei).
    rewrite (filter_numbers
               (fun n => negb (mem n (ids (readyForTesting p ++ inProgress p ++
                                           blocked p ++ backlog p)))) _ _ Eb).
    reflexivity.
  - unfold Spec.classification.
    cbn [calculate_delta d_readyForTesting d_inProgress d_blocked d_backlog
         rd_count rd_delta rd_new rd_moved it_count it_delta it_new
         cd_count cd_delta map].
    rewrite Cr, Ci, Cb, Ck, Er, Ei, Eb. reflexivity.
Qed.

Lemma calculate_delta_numbers_only_witness :
  Spec.same_numbers Sample.now (Sample.rename Sample.now) /\
  Spec.same_numbers_opt (Some Sample.before) (Some (Sample.rename Sample.before)) /\
  Spec.classification (calculate_delta Sample.now (Some Sample.before)) =
  Spec.classification
    (calculate_delta (Sample.rename Sample.now)
                     (Some (Sample.rename Sample.before))).
Proof.
  assert (H1 : Spec.same_numbers Sample.now (Sample.rename Sample.now)).
  { split; intros c; destruct c; vm_compute; repeat constructor. }
  assert (H2 : Spec.same_numbers_opt (Some Sample.before)
                 (Some (Sample.rename Sample.before))).
  { split; intros c; destruct c; vm_compute; repeat constructor. }
  split; [exact H1|]. split; [exact H2|].
  exact (calculate_delta_numbers_only _ _ _ _ H1 H2).
Defined.

(** ** The formatter *)

Section FormatFacts.

Lemma str_pos (p : positive) : str (Z.pos p) = Spec.digits p.
Proof.
  unfold str, Spec.digits. cbn [Z.to_int NilZero.string_of_int].
  unfold NilZero.string_of_uint.
  pose proof (Unsigned.to_uint_nonnil p) as Hnil.
  destruct (Pos.to_uint p); [contradiction | reflexivity..].
Qed.

Lemma str_neg (p : positive) : str (Z.neg p) = String "-" (Spec.digits p).
Proof.
  unfold str, Spec.digits. cbn [Z.to_int NilZero.string_of_int].
  unfold NilZero.string_of_uint.
  pose proof (Unsigned.to_uint_nonnil p) as Hnil.
  destruct (Pos.to_uint p); [contradiction | reflexivity..].
Qed.

Lemma read_digits_digits (p : positive) :
  Spec.read_digits (Spec.digits p) = Some (N.pos p).
Proof.
  unfold Spec.read_digits, Spec.digits.
  rewrite NilEmpty.usu. cbn [option_map]. rewrite Unsigned.of_to. reflexivity.
Qed.

End FormatFacts.

(** C9.  [format_delta] renders a positive number as "+" followed by its
    decimal digits, a negative number as "-" followed by the digits of its
    absolute value, and zero as "no change"; it never renders "+0".  The
    digits read back as the number.  In particular 5 gives "+5", -2 gives
    "-2" and 0 gives "no change". *)
Theorem format_delta_sign (n : Z) :
  (0 < n -> format_delta n = String "+" (Spec.digits (Z.to_pos n))) /\
  (n < 0 -> format_delta n = String "-" (Spec.digits (Z.to_pos (- n)))) /\
  (n = 0 -> format_delta n = "no change") /\
  format_delta n <> "+0" /\
  (forall p, Spec.read_digits (Spec.digits p) = Some (N.pos p)) /\
  format_delta 5 = "+5" /\ format_delta (-2) = "-2" /\
  format_delta 0 = "no change".
Proof.
  assert (Hpos : forall p, format_delta (Z.pos p) = String "+" (Spec.digits p)).
  { intros p. unfold format_delta. cbn [Z.gtb Z.compare]. rewrite str_pos.
    reflexivity. }
  assert (Hneg : forall p, format_delta (Z.neg p) = String "-" (Spec.digits p)).
  { intros p. unfold format_delta. cbn [Z.gtb Z.ltb Z.compare]. apply str_neg. }
  split; [|split; [|split; [|split; [|split]]]].
  - intros H. destruct n as [|p|p]; try lia. apply Hpos.
  - intros H. destruct n as [|p|p]; try lia. apply Hneg.
  - intros ->. reflexivity.
  - destruct n as [|p|p].
    + discriminate.
    + rewrite Hpos. intros E. injection E as E.
      pose proof (read_digits_digits p) as R. rewrite E in R. discriminate R.
    + rewrite Hneg. discriminate.
  - apply read_digits_digits.
  - repeat split; reflexivity.
Qed.

Lemma format_delta_sign_witness :
  0 < 120 /\ format_delta 120 = "+120" /\
  -35 < 0 /\ format_delta (-35) = "-35".
Proof.
  destruct (format_delta_sign 120) as (Hp & _).
  destruct (format_delta_sign (-35)) as (_ & Hn & _).
  split; [lia|]. split; [exact (Hp ltac:(lia))|].
  split; [lia|]. exact (Hn ltac:(lia)).
Defined.

(** ** The run *)

Section RunFacts.

Import Run.

(** Nothing before [save_snapshot] touches the snapshot file. *)
Lemma send_keeps_file (env : Env) (token channel message : string)
    (dry_run : bool) (w : World) :
  snapshot_file (snd (send_slack_message env token channel message dry_run w)) =
  snapshot_file w.
Proof.
  unfold send_slack_message.
  destruct dry_run; [reflexivity|].
  destruct (slack_reply env) as [|[|]]; reflexivity.
Qed.

Lemma send_keeps (env : Env) (token channel message : string) (dry_run : bool) :
  keeps_file (send_slack_message env token channel message dry_run).
Proof. intros w. apply send_keeps_file. Qed.

Lemma of_option_keeps {A} (e : Exn) (o : option A) : keeps_file (of_option e o).
Proof. intros w. destruct o; reflexivity. Qed.

Lemma fetch_keeps (env : Env) : keeps_file (fetch_github_issues env).
Proof.
  intros w. unfold fetch_github_issues, bind, of_option.
  destruct (tracker_issues env); reflexivity.
Qed.

Lemma load_keeps : keeps_file load_previous_snapshot.
Proof.
  intros w. unfold load_previous_snapshot.
  destruct (snapshot_file w) as [[prev|]|] eqn:E; cbn [snd]; exact E.
Qed.

Lemma save_never_raises (env : Env) (snapshot : Snapshot) :
  aborts_clean (save_snapshot env snapshot).
Proof. intros w e w' H. discriminate H. Qed.

(** A step that keeps the file, followed by steps that abort cleanly, aborts
    cleanly. *)
Lemma bind_aborts_clean {A B} (m : M A) (k : A -> M B) :
  keeps_file m -> (forall a, aborts_clean (k a)) -> aborts_clean (bind m k).
Proof.
  intros Hm Hk w e w' H. unfold bind in H. specialize (Hm w).
  destruct (m w) as [[e0|a] w0]; cbn [snd] in Hm.
  - injection H as _ <-. exact Hm.
  - rewrite <- Hm. exact (Hk a w0 e w' H).
Qed.

Lemma main_body_aborts_clean (env : Env) (dry_run : bool) :
  aborts_clean (main_body env dry_run).
Proof.
  unfold main_body.
  apply bind_aborts_clean; [apply of_option_keeps | intros _].
  apply bind_aborts_clean; [apply of_option_keeps | intros slack].
  apply bind_aborts_clean; [apply fetch_keeps | intros issues].
  apply bind_aborts_clean; [apply load_keeps | intros previous].
  apply bind_aborts_clean; [apply send_keeps | intros _].
  apply save_never_raises.
Qed.

(** A run that ends with status 1 leaves the snapshot file as it was: every
    exception is raised before the file is written. *)
Lemma main_exception_keeps_file (env : Env) (dry_run : bool) (w : World) :
  fst (main env dry_run w) = 1 ->
  snapshot_file (snd (main env dry_run w)) = snapshot_file w.
Proof.
  unfold main.
  destruct (main_body env dry_run w) as [[e|u] w'] eqn:E; cbn [fst snd].
  - intros _. exact (main_body_aborts_clean env dry_run w e w' E).
  - discriminate.
Qed.

(** A post that raises aborts the run with status 1. *)
Lemma main_post_raises (env : Env) (w : World) :
  slack_reply env = PostRaises ->
  fst (main env false w) = 1 /\
  snapshot_file (snd (main env false w)) = snapshot_file w.
Proof.
  intros Hr.
  assert (H1 : fst (main env false w) = 1).
  { unfold main, main_body, fetch_github_issues, load_previous_snapshot,
      send_slack_message, bind, of_option, ret, raise.
    rewrite Hr.
    destruct (github_token env); [|reflexivity].
    destruct (slack_token env); [|reflexivity].
    destruct (tracker_issues env); [|reflexivity].
    destruct (snapshot_file w) as [[prev|]|]; reflexivity. }
  split; [exact H1 | apply main_exception_keeps_file; exact H1].
Qed.

(** A post that is answered with ['ok'] false does not stop the run: the
    snapshot file is rewritten and the status is 0. *)
Lemma main_post_rejected (env : Env) (w : World)
    (gh sl : string) (issues : list RawIssue) :
  github_token env = Some gh -> slack_token env = Some sl ->
  tracker_issues env = Some issues ->
  snapshot_file w <> Some Garbled ->
  slack_reply env = PostReplies false ->
  main env false w =
    (0, {| snapshot_file :=
             Some (Stored (stamp env (categorize_issues
               (List.filter (fun i => negb (raw_pull_request i)) issues))));
           delivered := delivered w |}).
Proof.
  intros Hg Hs Hi Hf Hr.
  unfold main, main_body, fetch_github_issues, load_previous_snapshot,
    send_slack_message, save_snapshot, bind, of_option, ret, raise.
  rewrite Hg, Hs, Hi, Hr.
  destruct (snapshot_file w) as [[prev|]|]; try reflexivity; congruence.
Qed.

End RunFacts.

(** C8.  A live run in which the chat service rejects the message (its reply
    has ['ok'] false) ends with status 0 and has replaced the stored snapshot:
    the file no longer holds the snapshot of the previous run, and nothing
    was delivered. *)
Theorem rejected_post_overwrites_snapshot :
  Run.main Sample.env_rejected false Sample.world_before =
    (0, {| Run.snapshot_file :=
             Some (Run.Stored (Run.stamp Sample.env_rejected Sample.now));
           Run.delivered := [] |}) /\
  Run.snapshot_file (snd (Run.main Sample.env_rejected false Sample.world_before))
    <> Run.snapshot_file Sample.world_before.
Proof.
  assert (E : Run.main Sample.env_rejected false Sample.world_before =
    (0, {| Run.snapshot_file :=
             Some (Run.Stored (Run.stamp Sample.env_rejected Sample.now));
           Run.delivered := [] |})) by (vm_compute; reflexivity).
  split; [exact E|]. rewrite E. vm_compute. discriminate.
Qed.

(** ** More about the categorizer *)

Section CategorizerMore.

Lemma members_cons (c : Category) (i : RawIssue) (issues : list RawIssue) :
  Spec.members c (i :: issues) =
  (if bool_decide (Spec.assigned i = c) then [category i] else []) ++
  Spec.members c issues.
Proof.
  unfold Spec.members. cbn [List.filter].
  destruct (bool_decide (Spec.assigned i = c)); reflexivity.
Qed.

Lemma all_issues_members (issues : list RawIssue) :
  More.all_issues (categorize_issues issues) =
  Spec.members ReadyForTesting issues ++ Spec.members InProgress issues ++
  Spec.members Blocked issues ++ Spec.members Backlog issues.
Proof.
  unfold More.all_issues.
  change (readyForTesting ?x) with (bucket ReadyForTesting x).
  change (inProgress ?x) with (bucket InProgress x).
  change (blocked ?x) with (bucket Blocked x).
  change (backlog ?x) with (bucket Backlog x).
  rewrite !bucket_categorize. reflexivity.
Qed.

Lemma filter_sublist {A} (f : A -> bool) (l : list A) :
  List.filter f l `sublist_of` l.
Proof.
  induction l as [|a l IH]; cbn [List.filter]; [constructor|].
  destruct (f a); [apply sublist_skip | apply sublist_cons]; exact IH.
Qed.

Lemma map_sublist {A B} (f : A -> B) (l k : list A) :
  l `sublist_of` k -> map f l `sublist_of` map f k.
Proof.
  induction 1; cbn [map]; [constructor | apply sublist_skip | apply sublist_cons];
    assumption.
Qed.

Lemma occurs_in_tail (a b s : string) :
  Text.occurs_in (a ++ b)%string s -> Text.occurs_in b s.
Proof.
  intros (pre & post & ->). exists (pre ++ a)%string, post.
  clear. induction pre as [|c pre IH].
  - change (("" ++ a) ++ b ++ post)%string with (a ++ b ++ post)%string.
    change ("" ++ (a ++ b) ++ post)%string with ((a ++ b) ++ post)%string.
    induction a as [|c a IH]; [reflexivity|].
    change ((String c a ++ b) ++ post)%string
      with (String c ((a ++ b) ++ post)%string).
    change (String c a ++ b ++ post)%string
      with (String c (a ++ b ++ post)%string).
    rewrite IH. reflexivity.
  - change (String c pre ++ (a ++ b) ++ post)%string
      with (String c (pre ++ (a ++ b) ++ post)%string).
    change ((String c pre ++ a) ++ b ++ post)%string
      with (String c ((pre ++ a) ++ b ++ post)%string).
    rewrite IH. reflexivity.
Qed.

End CategorizerMore.

(** X1.  Whatever the input (numbers may repeat), the four buckets of the
    snapshot taken together are a rearrangement of the input issues: no issue
    is dropped, none is listed twice, none is invented. *)
Theorem categorize_permutation (issues : list RawIssue) :
  More.all_issues (categorize_issues issues) ≡ₚ map category issues.
Proof.
  rewrite all_issues_members.
  induction issues as [|i issues IH]; [reflexivity|].
  rewrite !members_cons. cbn [map].
  destruct (Spec.assigned i); repeat case_bool_decide; try congruence;
    cbn [app]; rewrite <- IH.
  - reflexivity.
  - symmetry. apply Permutation_middle.
  - rewrite (app_assoc (Spec.members ReadyForTesting issues)).
    rewrite (app_assoc (Spec.members ReadyForTesting issues)
               (Spec.members InProgress issues)
               (Spec.members Blocked issues ++ Spec.members Backlog issues)).
    symmetry. apply Permutation_middle.
  - rewrite !app_assoc. symmetry. apply Permutation_middle.
Qed.

(** X2.  Every bucket lists its issues in the order of the input: it is a
    sub-sequence of the input issues. *)
Theorem categorize_stable (issues : list RawIssue) (c : Category) :
  bucket c (categorize_issues issues) `sublist_of` map category issues.
Proof.
  rewrite bucket_categorize. unfold Spec.members.
  apply map_sublist, filter_sublist.
Qed.

(** X3.  Categorizing two lists one after the other is categorizing them
    apart and joining the results bucket by bucket; the counts and the total
    add up. *)
Theorem categorize_app (xs ys : list RawIssue) :
  (forall c, bucket c (categorize_issues (xs ++ ys)) =
             bucket c (categorize_issues xs) ++ bucket c (categorize_issues ys)) /\
  (forall c, count c (categorize_issues (xs ++ ys)) =
             count c (categorize_issues xs) + count c (categorize_issues ys)) /\
  totalCount (categorize_issues (xs ++ ys)) =
    totalCount (categorize_issues xs) + totalCount (categorize_issues ys).
Proof.
  assert (Hb : forall c, bucket c (categorize_issues (xs ++ ys)) =
             bucket c (categorize_issues xs) ++ bucket c (categorize_issues ys)).
  { intros c. rewrite !bucket_categorize. apply members_app. }
  split; [exact Hb|]. split.
  - intros c. rewrite !count_categorize, Hb. unfold len.
    rewrite length_app. lia.
  - cbn [categorize_issues totalCount]. unfold len. rewrite length_app. lia.
Qed.

(** X4.  The bucket of an issue depends on the set of its lower-cased label
    names only: order, repetition and letter case of the labels do not
    matter. *)
Theorem category_of_label_set (i j : RawIssue) :
  (forall label, In label (label_names i) <-> In label (label_names j)) ->
  has_blocked i = has_blocked j /\
  has_ready i = has_ready j /\
  has_in_progress i = has_in_progress j /\
  Spec.assigned i = Spec.assigned j.
Proof.
  intros H.
  assert (Hb : has_blocked i = has_blocked j).
  { apply eq_true_iff_eq. rewrite !has_blocked_spec.
    unfold Spec.is_blocked. split; intros (l & Hl & Hr); exists l;
      (split; [apply H; exact Hl | exact Hr]). }
  assert (Hr : has_ready i = has_ready j).
  { apply eq_true_iff_eq. rewrite !has_ready_spec.
    unfold Spec.is_ready. split; intros (l & Hl & Hx); exists l;
      (split; [apply H; exact Hl | exact Hx]). }
  assert (Hp : has_in_progress i = has_in_progress j).
  { apply eq_true_iff_eq. rewrite !has_in_progress_spec.
    unfold Spec.is_in_progress. split; intros (l & Hl & Hx); exists l;
      (split; [apply H; exact Hl | exact Hx]). }
  repeat split; try assumption.
  unfold Spec.assigned, Spec.priority_rules, Spec.first_match.
  rewrite Hb, Hr, Hp. reflexivity.
Qed.

Lemma category_of_label_set_witness :
  (forall label, In label (label_names More.shouting) <->
                 In label (label_names (Sample.raw 9 ["blocked"; "ready"]))) /\
  Spec.assigned More.shouting =
  Spec.assigned (Sample.raw 9 ["blocked"; "ready"]).
Proof.
  assert (H : forall label, In label (label_names More.shouting) <->
                 In label (label_names (Sample.raw 9 ["blocked"; "ready"]))).
  { intros label.
    change (label_names More.shouting) with ["ready"; "blocked"; "blocked"].
    change (label_names (Sample.raw 9 ["blocked"; "ready"]))
      with ["blocked"; "ready"].
    cbn [In]. tauto. }
  split; [exact H|].
  apply (category_of_label_set More.shouting (Sample.raw 9 ["blocked"; "ready"]) H).
Defined.

(** X5.  The third test of the in-progress rule never decides: a label that
    contains "status:in-progress" contains "in-progress", so the rule is the
    disjunction of its first two tests. *)
Theorem in_progress_third_test_redundant (label : string) :
  in_progress_label label =
  (Text.contains "in-progress" label || Text.contains "in progress" label)%bool.
Proof.
  unfold in_progress_label.
  destruct (Text.contains "status:in-progress" label) eqn:E;
    [|apply orb_false_r].
  apply contains_occurs in E.
  apply (occurs_in_tail "status:" "in-progress") in E.
  apply contains_occurs in E. rewrite E. reflexivity.
Qed.

(** ** More about the delta engine *)

Section DeltaMore.

Lemma filter_none {A} (f : A -> bool) (l : list A) :
  (forall x, In x l -> f x = false) -> List.filter f l = [].
Proof.
  induction l as [|a l IH]; intros H; [reflexivity|].
  cbn [List.filter]. rewrite (H a (or_introl eq_refl)).
  apply IH. intros x Hx. apply H. right. exact Hx.
Qed.

Lemma filter_all {A} (f : A -> bool) (l : list A) :
  (forall x, f x = true) -> List.filter f l = l.
Proof.
  intros H. induction l as [|a l IH]; [reflexivity|].
  cbn [List.filter]. rewrite H, IH. reflexivity.
Qed.

Lemma mem_nil (n : Z) : mem n (ids []) = false.
Proof.
  unfold mem, ids. apply bool_decide_eq_false. cbn [map list_to_set].
  apply not_elem_of_empty.
Qed.

Lemma mem_in (i : Issue) (l : list Issue) :
  In i l -> mem (number i) (ids l) = true.
Proof. intros H. apply mem_ids. apply in_map. exact H. Qed.

Lemma in_no_bucket_split (s : Snapshot) (n : Z) :
  Spec.in_no_bucket s n =
  (negb (Spec.in_bucket ReadyForTesting s n) &&
   negb (Spec.in_other_bucket s n))%bool.
Proof.
  unfold Spec.in_no_bucket, Spec.in_other_bucket. cbn [forallb existsb].
  destruct (Spec.in_bucket ReadyForTesting s n),
    (Spec.in_bucket InProgress s n), (Spec.in_bucket Blocked s n),
    (Spec.in_bucket Backlog s n); reflexivity.
Qed.

Lemma categorize_consistent (issues : list RawIssue) :
  More.consistent (categorize_issues issues).
Proof. intros c. apply count_categorize. Qed.

Lemma categorize_totals_add (issues : list RawIssue) :
  More.totals_add (categorize_issues issues).
Proof.
  unfold More.totals_add.
  change (totalCount (categorize_issues issues)) with (len issues).
  change (readyForTestingCount ?x) with (count ReadyForTesting x).
  change (inProgressCount ?x) with (count InProgress x).
  change (blockedCount ?x) with (count Blocked x).
  change (backlogCount ?x) with (count Backlog x).
  rewrite !count_categorize, !bucket_categorize. unfold len.
  rewrite (members_lengths issues) at 1. lia.
Qed.

End DeltaMore.

(** X6.  Every list of a delta is a sub-sequence of the current bucket it
    reports on, with or without a previous snapshot; when the counts of the
    current snapshot are the lengths of its buckets, no list is longer than
    the count reported beside it. *)
Theorem delta_lists_within_buckets (current : Snapshot) (previous : option Snapshot) :
  let d := calculate_delta current previous in
  (rd_new (d_readyForTesting d) `sublist_of` readyForTesting current /\
   rd_moved (d_readyForTesting d) `sublist_of` readyForTesting current /\
   it_new (d_inProgress d) `sublist_of` inProgress current /\
   it_new (d_blocked d) `sublist_of` blocked current) /\
  (More.consistent current ->
   len (rd_new (d_readyForTesting d)) <= rd_count (d_readyForTesting d) /\
   len (rd_moved (d_readyForTesting d)) <= rd_count (d_readyForTesting d) /\
   len (it_new (d_inProgress d)) <= it_count (d_inProgress d) /\
   len (it_new (d_blocked d)) <= it_count (d_blocked d)).
Proof.
  cbn zeta.
  assert (Hsub :
    rd_new (d_readyForTesting (calculate_delta current previous))
      `sublist_of` readyForTesting current /\
    rd_moved (d_readyForTesting (calculate_delta current previous))
      `sublist_of` readyForTesting current /\
    it_new (d_inProgress (calculate_delta current previous))
      `sublist_of` inProgress current /\
    it_new (d_blocked (calculate_delta current previous))
      `sublist_of` blocked current).
  { destruct previous as [p|];
      cbn [calculate_delta d_readyForTesting d_inProgress d_blocked
           rd_new rd_moved it_new].
    - repeat split; apply filter_sublist.
    - repeat split; try reflexivity. apply sublist_nil_l. }
  split; [exact Hsub|]. intros Hc.
  destruct Hsub as (H1 & H2 & H3 & H4).
  apply sublist_length in H1, H2, H3, H4.
  pose proof (Hc ReadyForTesting) as Cr. pose proof (Hc InProgress) as Ci.
  pose proof (Hc Blocked) as Cb. cbn [count bucket] in Cr, Ci, Cb.
  assert (rd_count (d_readyForTesting (calculate_delta current previous)) =
          readyForTestingCount current) as -> by (destruct previous; reflexivity).
  assert (it_count (d_inProgress (calculate_delta current previous)) =
          inProgressCount current) as -> by (destruct previous; reflexivity).
  assert (it_count (d_blocked (calculate_delta current previous)) =
          blockedCount current) as -> by (destruct previous; reflexivity).
  rewrite Cr, Ci, Cb. unfold len. lia.
Qed.

Lemma delta_lists_within_buckets_witness :
  More.consistent Sample.now /\
  len (rd_moved (d_readyForTesting
         (calculate_delta Sample.now (Some Sample.before)))) <=
  rd_count (d_readyForTesting (calculate_delta Sample.now (Some Sample.before))).
Proof.
  assert (H : More.consistent Sample.now) by (intros c; destruct c; reflexivity).
  split; [exact H|].
  exact (proj1 (proj2 (proj2 (delta_lists_within_buckets Sample.now
                                (Some Sample.before)) H))).
Defined.

(** X7.  When the total of each snapshot is the sum of its four counts (as in
    every snapshot the categorizer builds), the four net changes of a delta
    add up to the change of the total; on a first run they add up to the
    total. *)
Theorem net_changes_add_up (current : Snapshot) :
  More.totals_add current ->
  More.net_total (calculate_delta current None) = totalCount current /\
  (forall previous, More.totals_add previous ->
     More.net_total (calculate_delta current (Some previous)) =
     totalCount current - totalCount previous) /\
  (forall xs ys,
     More.net_total (calculate_delta (categorize_issues xs)
                                     (Some (categorize_issues ys))) =
     len xs - len ys).
Proof.
  unfold More.totals_add, More.net_total. intros Hc. split; [|split].
  - cbn. lia.
  - intros previous Hp. cbn. lia.
  - intros xs ys.
    pose proof (categorize_totals_add xs) as Hx.
    pose proof (categorize_totals_add ys) as Hy.
    unfold More.totals_add in Hx, Hy.
    change (totalCount (categorize_issues xs)) with (len xs) in Hx.
    change (totalCount (categorize_issues ys)) with (len ys) in Hy.
    cbn [calculate_delta d_readyForTesting d_inProgress d_blocked d_backlog
         rd_delta it_delta cd_delta]. lia.
Qed.

Lemma net_changes_add_up_witness :
  More.totals_add Sample.now /\
  More.net_total (calculate_delta Sample.now None) = totalCount Sample.now.
Proof.
  assert (H : More.totals_add Sample.now) by reflexivity.
  split; [exact H | exact (proj1 (net_changes_add_up Sample.now H))].
Defined.

(** X8.  An issue reported as new in ReadyForTesting is either reported as
    moved as well, and then its number occurs in a previous bucket, or it is
    not reported as moved, and then its number occurs in no previous bucket;
    never both. *)
Theorem new_ready_moved_or_fresh (current previous : Snapshot) (i : Issue) :
  let d := calculate_delta current (Some previous) in
  In i (rd_new (d_readyForTesting d)) ->
  (In i (rd_moved (d_readyForTesting d)) /\
   Spec.in_no_bucket previous (number i) = false) \/
  (~ In i (rd_moved (d_readyForTesting d)) /\
   Spec.in_no_bucket previous (number i) = true).
Proof.
  cbn zeta. cbn [calculate_delta d_readyForTesting rd_new rd_moved].
  rewrite !filter_In, mem_other_buckets, in_no_bucket_split, mem_existsb.
  intros [Hin Hnew].
  change (existsb (Z.eqb (number i)) (map number (readyForTesting previous)))
    with (Spec.in_bucket ReadyForTesting previous (number i)) in Hnew.
  rewrite Hnew.
  destruct (Spec.in_other_bucket previous (number i)).
  - left. split; [split; [exact Hin | reflexivity] | reflexivity].
  - right. split; [intros [_ H]; discriminate H | reflexivity].
Qed.

Lemma new_ready_moved_or_fresh_witness :
  In Sample.five (rd_new (d_readyForTesting
                    (calculate_delta Sample.now (Some Sample.before)))) /\
  ((In Sample.five (rd_moved (d_readyForTesting
                      (calculate_delta Sample.now (Some Sample.before)))) /\
    Spec.in_no_bucket Sample.before (number Sample.five) = false) \/
   (~ In Sample.five (rd_moved (d_readyForTesting
                        (calculate_delta Sample.now (Some Sample.before)))) /\
    Spec.in_no_bucket Sample.before (number Sample.five) = true)).
Proof.
  assert (H : In Sample.five (rd_new (d_readyForTesting
                (calculate_delta Sample.now (Some Sample.before)))))
    by (left; reflexivity).
  split; [exact H|].
  exact (new_ready_moved_or_fresh Sample.now Sample.before Sample.five H).
Defined.

(** X9.  Diffing a snapshot against a previous one that holds the same
    sequences and counts gives net change 0 in all four categories and no new
    issue; provided the ReadyForTesting numbers occur in no other bucket, it
    gives no moved issue either. *)
Theorem unchanged_snapshot_delta (s previous : Snapshot) :
  More.same_content s previous ->
  let d := calculate_delta s (Some previous) in
  (rd_delta (d_readyForTesting d) = 0 /\ it_delta (d_inProgress d) = 0 /\
   it_delta (d_blocked d) = 0 /\ cd_delta (d_backlog d) = 0) /\
  (rd_new (d_readyForTesting d) = [] /\ it_new (d_inProgress d) = [] /\
   it_new (d_blocked d) = []) /\
  (ids (readyForTesting s) ##
     ids (inProgress s) ∪ ids (blocked s) ∪ ids (backlog s) ->
   rd_moved (d_readyForTesting d) = []).
Proof.
  intros [Hb Hc]. cbn zeta.
  pose proof (Hb ReadyForTesting) as Br. pose proof (Hb InProgress) as Bi.
  pose proof (Hb Blocked) as Bb. pose proof (Hb Backlog) as Bk.
  pose proof (Hc ReadyForTesting) as Cr. pose proof (Hc InProgress) as Ci.
  pose proof (Hc Blocked) as Cb. pose proof (Hc Backlog) as Ck.
  cbn [bucket count] in *.
  cbn [calculate_delta d_readyForTesting d_inProgress d_blocked d_backlog
       rd_delta rd_new rd_moved it_delta it_new cd_delta].
  rewrite Br, Bi, Bb, Bk, Cr, Ci, Cb, Ck.
  split; [repeat split; apply Z.sub_diag|]. split; [split; [|split]|].
  - apply filter_none. intros i Hi. rewrite (mem_in i _ Hi). reflexivity.
  - apply filter_none. intros i Hi. rewrite !mem_ids_app, (mem_in i _ Hi).
    rewrite orb_true_r. reflexivity.
  - apply filter_none. intros i Hi. rewrite !mem_ids_app, (mem_in i _ Hi).
    rewrite !orb_true_r. reflexivity.
  - intros Hdisj. apply filter_none. intros i Hi.
    apply not_true_is_false. intros Hm.
    rewrite !orb_true_iff in Hm. unfold mem in Hm.
    rewrite !bool_decide_eq_true in Hm.
    apply (proj1 (elem_of_disjoint _ _) Hdisj (number i)).
    + apply elem_of_ids, in_map. exact Hi.
    + rewrite !elem_of_union. exact Hm.
Qed.

Lemma unchanged_snapshot_delta_witness :
  More.same_content (categorize_issues Sample.tracker)
    (Run.stamp More.env_live (categorize_issues Sample.tracker)) /\
  it_new (d_blocked
    (calculate_delta (categorize_issues Sample.tracker)
       (Some (Run.stamp More.env_live (categorize_issues Sample.tracker))))) = [].
Proof.
  assert (H : More.same_content (categorize_issues Sample.tracker)
    (Run.stamp More.env_live (categorize_issues Sample.tracker))).
  { split; intros c; destruct c; reflexivity. }
  split; [exact H|].
  exact (proj2 (proj2 (proj1 (proj2 (unchanged_snapshot_delta _ _ H))))).
Defined.

(** X10.  A previous snapshot taken when no issue was open gives the delta of
    a first run: the delta engine does not tell an empty previous snapshot
    from a missing one. *)
Theorem empty_previous_is_first_run (current previous : Snapshot) :
  More.nothing_open previous ->
  calculate_delta current (Some previous) = calculate_delta current None.
Proof.
  intros [Hb Hc].
  pose proof (Hb ReadyForTesting) as Br. pose proof (Hb InProgress) as Bi.
  pose proof (Hb Blocked) as Bb. pose proof (Hb Backlog) as Bk.
  pose proof (Hc ReadyForTesting) as Cr. pose proof (Hc InProgress) as Ci.
  pose proof (Hc Blocked) as Cb. pose proof (Hc Backlog) as Ck.
  cbn [bucket count] in *.
  cbn [calculate_delta]. rewrite Br, Bi, Bb, Bk, Cr, Ci, Cb, Ck.
  cbn [app]. rewrite !Z.sub_0_r.
  rewrite (filter_all (fun i => negb (mem (number i) (ids []))))
    by (intros i; rewrite mem_nil; reflexivity).
  rewrite (filter_all (fun i => negb (mem (number i) (ids []))))
    by (intros i; rewrite mem_nil; reflexivity).
  rewrite (filter_all (fun i => negb (mem (number i) (ids []))))
    by (intros i; rewrite mem_nil; reflexivity).
  rewrite (filter_none (fun i => (mem (number i) (ids []) || mem (number i) (ids [])
                                  || mem (number i) (ids []))%bool))
    by (intros i _; rewrite mem_nil; reflexivity).
  reflexivity.
Qed.

Lemma empty_previous_is_first_run_witness :
  More.nothing_open (Run.stamp More.env_live (categorize_issues [])) /\
  calculate_delta Sample.now
    (Some (Run.stamp More.env_live (categorize_issues []))) =
  calculate_delta Sample.now None.
Proof.
  assert (H : More.nothing_open (Run.stamp More.env_live (categorize_issues []))).
  { split; intros c; destruct c; reflexivity. }
  split; [exact H | exact (empty_previous_is_first_run _ _ H)].
Defined.

(** ** More about the formatter *)

Section FormatMore.

Lemma format_delta_pos (p : positive) :
  format_delta (Z.pos p) = String "+" (Spec.digits p).
Proof.
  unfold format_delta. cbn [Z.gtb Z.compare]. rewrite str_pos. reflexivity.
Qed.

Lemma format_delta_neg (p : positive) :
  format_delta (Z.neg p) = String "-" (Spec.digits p).
Proof. unfold format_delta. cbn [Z.gtb Z.ltb Z.compare]. apply str_neg. Qed.

Lemma digits_inj (p q : positive) : Spec.digits p = Spec.digits q -> p = q.
Proof.
  intros E. pose proof (read_digits_digits p) as Hp.
  rewrite E, read_digits_digits in Hp. congruence.
Qed.

End FormatMore.

(** X11.  [format_delta] is unambiguous: two different numbers are never
    rendered alike, so the number can be read back from the report. *)
Theorem format_delta_injective (n m : Z) :
  format_delta n = format_delta m -> n = m.
Proof.
  destruct n as [|p|p], m as [|q|q];
    rewrite ?format_delta_pos, ?format_delta_neg;
    change (format_delta 0) with "no change"; intros E;
    try reflexivity; try discriminate E.
  - injection E as E. apply digits_inj in E. congruence.
  - injection E as E. apply digits_inj in E. congruence.
Qed.

Lemma format_delta_injective_witness :
  format_delta 12 = format_delta (24 - 12) /\ 12 = 24 - 12.
Proof.
  assert (H : format_delta 12 = format_delta (24 - 12)) by reflexivity.
  split; [exact H | exact (format_delta_injective 12 (24 - 12) H)].
Defined.

(** X12.  When the previous snapshot has the same four counts as the current
    one, the report shows the current counts, each followed by "no change",
    whatever issues moved between or within the buckets. *)
Theorem report_without_change (time_str repo : string) (s previous : Snapshot) :
  (forall c, count c previous = count c s) ->
  format_slack_message time_str repo (calculate_delta s (Some previous)) =
  More.unchanged_report time_str repo s.
Proof.
  intros Hc.
  pose proof (Hc ReadyForTesting) as Cr. pose proof (Hc InProgress) as Ci.
  pose proof (Hc Blocked) as Cb. pose proof (Hc Backlog) as Ck.
  cbn [count] in *.
  unfold format_slack_message, More.unchanged_report, report_line,
    More.unchanged_line.
  cbn [calculate_delta d_readyForTesting d_inProgress d_blocked d_backlog
       rd_count rd_delta it_count it_delta cd_count cd_delta].
  rewrite Cr, Ci, Cb, Ck, !Z.sub_diag. reflexivity.
Qed.

Lemma report_without_change_witness :
  (forall c, count c (Sample.rename Sample.now) = count c Sample.now) /\
  format_slack_message "09:00 AM CDT" GITHUB_REPO_NAME
    (calculate_delta Sample.now (Some (Sample.rename Sample.now))) =
  More.unchanged_report "09:00 AM CDT" GITHUB_REPO_NAME Sample.now.
Proof.
  assert (H : forall c, count c (Sample.rename Sample.now) = count c Sample.now)
    by (intros c; destruct c; reflexivity).
  split; [exact H | exact (report_without_change _ _ _ _ H)].
Defined.

(** ** More about the run *)

Section RunMore.

Import Run.

Lemma main_missing (env : Env) (dry_run : bool) (w : World) :
  github_token env = None \/ slack_token env = None \/ tracker_issues env = None ->
  main env dry_run w = (1, w).
Proof.
  unfold main, main_body, fetch_github_issues, bind, of_option, ret, raise.
  destruct (github_token env); [|reflexivity].
  destruct (slack_token env); [|reflexivity].
  destruct (tracker_issues env); [|reflexivity].
  intros [H|[H|H]]; discriminate H.
Qed.

Lemma main_garbled (env : Env) (dry_run : bool) (w : World) :
  snapshot_file w = Some Garbled -> main env dry_run w = (1, w).
Proof.
  intros Hf.
  unfold main, main_body, fetch_github_issues, load_previous_snapshot,
    bind, of_option, ret, raise.
  destruct (github_token env); [|reflexivity].
  destruct (slack_token env); [|reflexivity].
  destruct (tracker_issues env); [|reflexivity].
  rewrite Hf. reflexivity.
Qed.

(** What a run does once the secrets and the tracker have answered and the
    snapshot file is readable or absent. *)
Lemma main_ready (env : Env) (dry_run : bool) (w : World)
    (gh sl : string) (issues : list RawIssue) :
  github_token env = Some gh -> slack_token env = Some sl ->
  tracker_issues env = Some issues ->
  snapshot_file w <> Some Garbled ->
  main env dry_run w =
    if dry_run then
      (0, {| snapshot_file := Some (Stored (stamp env (More.current_of issues)));
             delivered := delivered w |})
    else match slack_reply env with
         | PostRaises => (1, w)
         | PostReplies true =>
             (0, {| snapshot_file :=
                      Some (Stored (stamp env (More.current_of issues)));
                    delivered := delivered w ++
                      [(SLACK_CHANNEL_ID, More.report_of env issues w)] |})
         | PostReplies false =>
             (0, {| snapshot_file :=
                      Some (Stored (stamp env (More.current_of issues)));
                    delivered := delivered w |})
         end.
Proof.
  intros Hg Hs Hi Hf.
  unfold main, main_body, fetch_github_issues, load_previous_snapshot,
    send_slack_message, save_snapshot, bind, of_option, ret, raise,
    More.report_of, More.previous_of, More.current_of.
  rewrite Hg, Hs, Hi.
  destruct (snapshot_file w) as [[prev|]|]; [|congruence|];
    destruct dry_run; try reflexivity;
    destruct (slack_reply env) as [|[|]]; reflexivity.
Qed.

Lemma in_all_issues (issues : list RawIssue) (x : Issue) :
  In x (More.all_issues (categorize_issues issues)) <->
  In x (map category issues).
Proof.
  rewrite all_issues_members, !in_app_iff. unfold Spec.members.
  rewrite !in_map_iff. split.
  - intros [H|[H|[H|H]]]; destruct H as (r & E & Hr);
      apply filter_In in Hr as [Hr _]; eauto.
  - intros (r & E & Hr).
    destruct (Spec.assigned r) eqn:Ha;
      [left | right; left | right; right; left | right; right; right];
      exists r; (split; [exact E|]); apply filter_In;
      (split; [exact Hr|]); apply bool_decide_eq_true; exact Ha.
Qed.

Lemma file_cases (w : World) :
  snapshot_file w = Some Garbled \/ snapshot_file w <> Some Garbled.
Proof.
  destruct (snapshot_file w) as [[prev|]|]; [right|left|right];
    congruence.
Qed.

Lemma stamp_consistent (env : Env) (s : Snapshot) :
  More.consistent s -> More.consistent (stamp env s).
Proof. intros H c. specialize (H c). destruct c; exact H. Qed.

End RunMore.




(** X15.  After a run that ends with status 0 the snapshot file holds the
    categorization of the tracker's answer without its pull requests, with
    the time of the run and the repository name attached, whatever the file
    held before. *)
Theorem successful_run_saves_current (env : Run.Env) (dry_run : bool) (w : Run.World) :
  fst (Run.main env dry_run w) = 0 ->
  exists issues,
    Run.tracker_issues env = Some issues /\
    Run.snapshot_file (snd (Run.main env dry_run w)) =
      Some (Run.Stored (Run.stamp env (More.current_of issues))) /\
    timestamp (Run.stamp env (More.current_of issues)) = Some (Run.now_iso env) /\
    repoName (Run.stamp env (More.current_of issues)) =
      Some "ChinchillaEnterprises/transportation-insight".
Proof.
  destruct (Run.github_token env) as [gh|] eqn:Hg;
    [|rewrite main_missing by auto; discriminate].
  destruct (Run.slack_token env) as [sl|] eqn:Hs;
    [|rewrite main_missing by auto; discriminate].
  destruct (Run.tracker_issues env) as [issues|] eqn:Hi;
    [|rewrite main_missing by auto; discriminate].
  destruct (file_cases w) as [Hf|Hf];
    [rewrite main_garbled by exact Hf; discriminate|].
  rewrite (main_ready env dry_run w gh sl issues Hg Hs Hi Hf).
  intros H. exists issues. split; [reflexivity|].
  split; [|split; reflexivity].
  destruct dry_run; [|destruct (Run.slack_reply env) as [|[|]]];
    try reflexivity; discriminate H.
Qed.

Lemma successful_run_saves_current_witness :
  fst (Run.main More.env_live true More.world_garbled) = 1 /\
  fst (Run.main More.env_live true Sample.world_before) = 0 /\
  exists issues,
    Run.tracker_issues More.env_live = Some issues /\
    Run.snapshot_file (snd (Run.main More.env_live true Sample.world_before)) =
      Some (Run.Stored (Run.stamp More.env_live (More.current_of issues))).
Proof.
  split; [reflexivity|].
  assert (H : fst (Run.main More.env_live true Sample.world_before) = 0)
    by reflexivity.
  split; [exact H|].
  destruct (successful_run_saves_current More.env_live true
              Sample.world_before H) as (issues & Hi & Hf & _).
  exists issues. split; [exact Hi | exact Hf].
Defined.

Section RunSteps.

Import Run.

Lemma filter_lengths {A} (f : A -> bool) (l : list A) :
  (length (List.filter f l) + length (List.filter (fun x => negb (f x)) l))%nat =
  length l.
Proof.
  induction l as [|a l IH]; [reflexivity|].
  cbn [List.filter]. destruct (f a); cbn [negb length]; lia.
Qed.

Lemma main_success_file (env : Env) (dry_run : bool) (w : World)
    (issues : list RawIssue) :
  tracker_issues env = Some issues ->
  fst (main env dry_run w) = 0 ->
  snapshot_file (snd (main env dry_run w)) =
    Some (Stored (stamp env (More.current_of issues))).
Proof.
  intros Hi.
  destruct (github_token env) as [gh|] eqn:Hg;
    [|rewrite main_missing by auto; discriminate].
  destruct (slack_token env) as [sl|] eqn:Hs;
    [|rewrite main_missing by auto; discriminate].
  destruct (file_cases w) as [Hf|Hf];
    [rewrite main_garbled by exact Hf; discriminate|].
  rewrite (main_ready env dry_run w gh sl issues Hg Hs Hi Hf).
  destruct dry_run; [|destruct (slack_reply env) as [|[|]]];
    try reflexivity; discriminate.
Qed.

Lemma main_file_cases (env : Env) (dry_run : bool) (w : World) :
  snd (main env dry_run w) = w \/
  exists issues,
    snapshot_file (snd (main env dry_run w)) =
      Some (Stored (stamp env (More.current_of issues))).
Proof.
  destruct (github_token env) as [gh|] eqn:Hg;
    [|rewrite main_missing by auto; left; reflexivity].
  destruct (slack_token env) as [sl|] eqn:Hs;
    [|rewrite main_missing by auto; left; reflexivity].
  destruct (tracker_issues env) as [issues|] eqn:Hi;
    [|rewrite main_missing by auto; left; reflexivity].
  destruct (file_cases w) as [Hf|Hf];
    [rewrite main_garbled by exact Hf; left; reflexivity|].
  rewrite (main_ready env dry_run w gh sl issues Hg Hs Hi Hf).
  destruct dry_run; [|destruct (slack_reply env) as [|[|]]];
    try (right; exists issues; reflexivity). left. reflexivity.
Qed.

Lemma main_keeps_stored_ok (env : Env) (dry_run : bool) (w : World) :
  More.stored_ok w -> More.stored_ok (snd (main env dry_run w)).
Proof.
  intros Hw. destruct (main_file_cases env dry_run w) as [E|(issues & E)].
  - rewrite E. exact Hw.
  - unfold More.stored_ok. rewrite E. split.
    + apply stamp_consistent, categorize_consistent.
    + exact (categorize_totals_add _).
Qed.

Lemma run_all_cons (env : Env) (dry_run : bool) (rest : list (Env * bool))
    (w : World) :
  More.run_all ((env, dry_run) :: rest) w =
  (fst (main env dry_run w) :: fst (More.run_all rest (snd (main env dry_run w))),
   snd (More.run_all rest (snd (main env dry_run w)))).
Proof.
  cbn [More.run_all]. destruct (main env dry_run w) as [st w1]. cbn [fst snd].
  destruct (More.run_all rest w1). reflexivity.
Qed.

End RunSteps.

(** X16.  The snapshot a run builds holds exactly the tracker items that are
    not pull requests, and its total and the number of pull requests add up
    to the number of items the tracker returned. *)
Theorem pull_requests_never_stored (issues : list RawIssue) :
  let s := More.current_of issues in
  (forall x, In x (More.all_issues s) <->
     exists r, In r issues /\ raw_pull_request r = false /\ category r = x) /\
  totalCount s + len (List.filter raw_pull_request issues) = len issues.
Proof.
  cbn zeta. unfold More.current_of. split.
  - intros x. rewrite in_all_issues, in_map_iff. split.
    + intros (r & E & Hr). apply filter_In in Hr as [Hr Hp].
      apply negb_true_iff in Hp. eauto.
    + intros (r & Hr & Hp & E). exists r. split; [exact E|].
      apply filter_In. split; [exact Hr|]. rewrite Hp. reflexivity.
  - cbn [categorize_issues totalCount]. unfold len.
    pose proof (filter_lengths raw_pull_request issues). lia.
Qed.





(** X19.  A run never repairs a snapshot file it cannot read: while the file
    is garbled every run ends with status 1 and leaves the world as it
    is, whatever the collaborators answer and in either mode. *)
Theorem garbled_file_is_never_repaired
    (plan : list (Run.Env * bool)) (w : Run.World) :
  Run.snapshot_file w = Some Run.Garbled ->
  More.run_all plan w = (map (fun _ => 1) plan, w).
Proof.
  intros Hf. induction plan as [|[env dry_run] rest IH]; [reflexivity|].
  rewrite run_all_cons, (main_garbled env dry_run w Hf). cbn [fst snd map].
  rewrite IH. reflexivity.
Qed.

Lemma garbled_file_is_never_repaired_witness :
  Run.snapshot_file More.world_garbled = Some Run.Garbled /\
  More.run_all [(More.env_live, true); (More.env_live, false)]
    More.world_garbled = ([1; 1], More.world_garbled).
Proof.
  split; [reflexivity|].
  exact (garbled_file_is_never_repaired
           [(More.env_live, true); (More.env_live, false)]
           More.world_garbled eq_refl).
Defined.

(** X20.  Across any sequence of runs the snapshot file keeps its shape: if
    the snapshot it holds (if any) has counts equal to the lengths of its
    sequences and a total equal to their sum, so does the snapshot it holds
    after the runs. *)
Theorem stored_snapshot_stays_consistent
    (plan : list (Run.Env * bool)) (w : Run.World) :
  More.stored_ok w -> More.stored_ok (snd (More.run_all plan w)).
Proof.
  revert w. induction plan as [|[env dry_run] rest IH]; intros w Hw.
  - exact Hw.
  - rewrite run_all_cons. cbn [snd]. apply IH.
    apply main_keeps_stored_ok. exact Hw.
Qed.

Lemma stored_snapshot_stays_consistent_witness :
  More.stored_ok More.world_fresh /\
  More.stored_ok
    (snd (More.run_all [(More.env_live, true); (Sample.env_rejected, false)]
            More.world_fresh)).
Proof.
  assert (H : More.stored_ok More.world_fresh) by exact I.
  split; [exact H|].
  exact (stored_snapshot_stays_consistent
           [(More.env_live, true); (Sample.env_rejected, false)]
           More.world_fresh H).
Defined.

(** X21.  The script posts only when one of its arguments is exactly
    "--send": without that argument the run is a dry run, no message is
    acknowledged by the chat service, and the snapshot file is still
    rewritten when the run ends with status 0. *)
Theorem script_without_send_flag
    (argv : list string) (env : Run.Env) (w : Run.World) :
  ~ In "--send" argv ->
  More.script argv env w = Run.main env true w /\
  Run.delivered (snd (More.script argv env w)) = Run.delivered w /\
  (forall issues, Run.tracker_issues env = Some issues ->
     fst (More.script argv env w) = 0 ->
     Run.snapshot_file (snd (More.script argv env w)) =
       Some (Run.Stored (Run.stamp env (More.current_of issues)))).
Proof.
  intros Hno.
  assert (E : More.script argv env w = Run.main env true w).
  { unfold More.script.
    assert (existsb (String.eqb "--send") argv = false) as ->; [|reflexivity].
    apply not_true_is_false. intros H. apply existsb_exists in H as (a & Ha & Heq).
    apply String.eqb_eq in Heq. subst a. contradiction. }
  rewrite E. split; [reflexivity|]. split.
  - destruct (Run.github_token env) as [gh|] eqn:Hg;
      [|rewrite main_missing by auto; reflexivity].
    destruct (Run.slack_token env) as [sl|] eqn:Hs;
      [|rewrite main_missing by auto; reflexivity].
    destruct (Run.tracker_issues env) as [issues|] eqn:Hi;
      [|rewrite main_missing by auto; reflexivity].
    destruct (file_cases w) as [Hf|Hf];
      [rewrite main_garbled by exact Hf; reflexivity|].
    rewrite (main_ready env true w gh sl issues Hg Hs Hi Hf). reflexivity.
  - intros issues Hi Hok. apply main_success_file; assumption.
Qed.

Lemma script_without_send_flag_witness :
  ~ In "--send" ["test-github-issue-summary.py"; "--send=1"; "-send"] /\
  Run.delivered
    (snd (More.script ["test-github-issue-summary.py"; "--send=1"; "-send"]
            More.env_live Sample.world_before)) = [].
Proof.
  assert (H : ~ In "--send" ["test-github-issue-summary.py"; "--send=1"; "-send"]).
  { cbn [In]. intros [H|[H|[H|[]]]]; discriminate H. }
  split; [exact H|].
  exact (proj1 (proj2 (script_without_send_flag _ More.env_live
                         Sample.world_before H))).
Defined.
